(** * indice-paura: the VIX / S&P500 ratio dashboard

    A shallow embedding of [indice-paura.py]: the data pipeline of
    [get_data] (alignment of the two close-price series, [dropna], the
    ratio, the 20-day rolling mean and the Bollinger bands) and the
    script's [main] (metrics, chart traces, summary statistics and the
    percentile rank), with the pandas operations the script calls modelled
    after their documented behaviour.

    Numbers.  A pandas cell is a float64.  It is modelled by [float64]:
    a finite value is an exact rational, and the three special values
    [PosInf], [NegInf] and [NaN] follow IEEE-754 (division by zero,
    propagation of NaN, comparisons with NaN).  Rounding and overflow of
    finite arithmetic are not modelled, and zero carries no sign (it is
    +0).  The square root is a parameter [sqrtQ] of the definitions that
    take a standard deviation; the theorems say what they assume of it.

    Effects.  Script code is a function from the page shown so far to a
    result (a value or a raised exception) and the page after it:
    [st.error], [st.metric], ... append an element.  The two downloads
    are a parameter [yf_download].  The decorator [st.cache_data]
    memoises [get_data] by its two dates and is left out: on given
    downloads it returns what the function returns.

    [get_data] is one function in the script; here its lines 70-76 are
    [combined], its lines 82-95 [indicators], and [get_data_with] is the
    whole of it. *)

From Corelib Require Import PrimFloat.
From Stdlib Require Import String Ascii List Bool Arith ZArith QArith Qround Lia Lqa.
From Stdlib Require Import Sorted DecimalString Morphisms Setoid.
Import ListNotations.

Open Scope Q_scope.

(** ** float64 *)

Inductive float64 : Type :=
| Finite (q : Q)
| PosInf
| NegInf
| NaN.

Definition of_nat (n : nat) : float64 := Finite (inject_Z (Z.of_nat n)).

(** [np.isnan] / [pd.isna] on a float cell, and [np.isinf]. *)
Definition isnan (x : float64) : bool :=
  match x with NaN => true | _ => false end.

Definition notna (x : float64) : bool := negb (isnan x).

Definition isinf (x : float64) : bool :=
  match x with PosInf | NegInf => true | _ => false end.

Definition isfinite (x : float64) : bool :=
  match x with Finite _ => true | _ => false end.

(** The infinity of sign [pos], scaled by the sign of [q]; 0 * inf is NaN. *)
Definition scale_inf (pos : bool) (q : Q) : float64 :=
  if Qeq_bool q 0 then NaN
  else if Qle_bool 0 q then (if pos then PosInf else NegInf)
       else (if pos then NegInf else PosInf).

Definition fneg (x : float64) : float64 :=
  match x with
  | Finite q => Finite (- q)
  | PosInf => NegInf
  | NegInf => PosInf
  | NaN => NaN
  end.

Definition fadd (x y : float64) : float64 :=
  match x, y with
  | NaN, _ | _, NaN => NaN
  | Finite a, Finite b => Finite (a + b)
  | PosInf, NegInf | NegInf, PosInf => NaN
  | PosInf, _ | _, PosInf => PosInf
  | NegInf, _ | _, NegInf => NegInf
  end.

Definition fsub (x y : float64) : float64 := fadd x (fneg y).

Definition fmul (x y : float64) : float64 :=
  match x, y with
  | NaN, _ | _, NaN => NaN
  | Finite a, Finite b => Finite (a * b)
  | Finite a, PosInf | PosInf, Finite a => scale_inf true a
  | Finite a, NegInf | NegInf, Finite a => scale_inf false a
  | PosInf, PosInf | NegInf, NegInf => PosInf
  | PosInf, NegInf | NegInf, PosInf => NegInf
  end.

(** IEEE division: x/0 is an infinity of the sign of x, 0/0 and inf/inf
    are NaN; no exception is raised (numpy only warns). *)
Definition fdiv (x y : float64) : float64 :=
  match x, y with
  | NaN, _ | _, NaN => NaN
  | Finite a, Finite b =>
      if Qeq_bool b 0 then scale_inf true a else Finite (a / b)
  | Finite _, _ => Finite 0
  | PosInf, Finite b => if Qle_bool 0 b then PosInf else NegInf
  | NegInf, Finite b => if Qle_bool 0 b then NegInf else PosInf
  | _, _ => NaN
  end.

(** Comparisons: every comparison with NaN is false. *)
Definition fle (x y : float64) : bool :=
  match x, y with
  | NaN, _ | _, NaN => false
  | NegInf, _ => true
  | _, PosInf => true
  | Finite a, Finite b => Qle_bool a b
  | _, _ => false
  end.

Definition flt (x y : float64) : bool :=
  match x, y with
  | NaN, _ | _, NaN => false
  | Finite a, Finite b => negb (Qle_bool b a)
  | PosInf, _ => false
  | _, NegInf => false
  | _, _ => true
  end.

Definition fgt (x y : float64) : bool := flt y x.

(** Equality of cells up to the representation of the rational. *)
Definition feq (x y : float64) : Prop :=
  match x, y with
  | Finite a, Finite b => a == b
  | PosInf, PosInf | NegInf, NegInf | NaN, NaN => True
  | _, _ => False
  end.

Infix "=f=" := feq (at level 70, no associativity).

Definition fsum (l : list float64) : float64 := fold_left fadd l (Finite 0).

Definition Qsum (l : list Q) : Q := fold_left Qplus l 0.

Definition Qmean (l : list Q) : Q := Qsum l / inject_Z (Z.of_nat (length l)).

(** The square root used for witnesses and counterexamples: the root of
    the reduced fraction, rounded down to a multiple of 1/(den * 2^30). *)
Definition sqrt_floor (q : Q) : Q :=
  let r := Qred q in
  Z.sqrt (Qnum r * Zpos (Qden r) * 4 ^ 30) # (Qden r * 2 ^ 30).

Section Sqrt.

(** The rounded square root of the floating-point unit, on finite values. *)
Variable sqrtQ : Q -> Q.

(** [np.sqrt]: NaN on a negative argument. *)
Definition fsqrt (x : float64) : float64 :=
  match x with
  | Finite q => if Qle_bool 0 q then Finite (sqrtQ q) else NaN
  | PosInf => PosInf
  | NegInf | NaN => NaN
  end.

(** pandas' [zsqrt] (core/window/common.py): the root, with 0 where the
    argument is negative. *)
Definition zsqrt (x : float64) : float64 :=
  if flt x (Finite 0) then Finite 0 else fsqrt x.

End Sqrt.

(** ** Series and data frames *)

(** Timestamps and dates are day numbers. *)
Abbreviation Timestamp := Z.
Abbreviation Date := Z.

(** A time-indexed column: the rows (timestamp, value) in index order. *)
Definition Series := list (Timestamp * float64).

(** A data frame: the row index and the labelled columns, in insertion
    order; every column holds one cell per index entry. *)
Record DataFrame : Type := mkDataFrame {
  df_index : list Timestamp;
  df_columns : list (string * list float64)
}.

(** [pd.DataFrame()] *)
Definition DataFrame_new : DataFrame := mkDataFrame [] [].

(** [df.empty]: some axis has length 0. *)
Definition df_empty (df : DataFrame) : bool :=
  (length (df_index df) =? 0)%nat || (length (df_columns df) =? 0)%nat.

Definition columns (df : DataFrame) : list string := map fst (df_columns df).

(** ** Exceptions and the Streamlit output *)

Inductive exn : Type :=
| KeyError (key : string)
| IndexError (msg : string)
| ValueError (msg : string)
| DownloadError (msg : string).

(** [str(e)] *)
Definition str_exn (e : exn) : string :=
  match e with
  | KeyError key => ("'" ++ key ++ "'")%string
  | IndexError msg | ValueError msg | DownloadError msg => msg
  end.

Inductive result (A : Type) : Type :=
| Ok (a : A)
| Raise (e : exn).

Arguments Ok {A} a.
Arguments Raise {A} e.

Definition rbind {A B : Type} (r : result A) (k : A -> result B) : result B :=
  match r with
  | Ok a => k a
  | Raise e => Raise e
  end.

Declare Scope result_scope.
Delimit Scope result_scope with res.
Notation "x <- r ;; k" := (rbind r (fun x => k))
  (at level 100, r at next level, right associativity) : result_scope.

(** One trace of the Plotly figure: its legend name, its y values and
    the subplot row it is drawn in ([None] on a single figure). *)
Record Trace : Type := mkTrace {
  tr_name : string;
  tr_y : list float64;
  tr_row : option nat
}.

(** What a script run shows, in order.  Numbers are kept as cells, not as
    the formatted text. *)
Inductive Element : Type :=
| StError (msg : string)
| StInfo (msg : string)
| StSubheader (text : string)
| StMetric (label : string) (value change change_pct : float64)
| StPlotlyChart (subplots : bool) (traces : list Trace)
| StWrite (text : string) (values : list float64)
| StStats (rows : list (string * float64))
| StDataframe (data : DataFrame)
| StDownloadButton (label : string) (csv : DataFrame) (start_date end_date : Date)
| StMarkdown (text : string)
| StCaption (text : string).

(** Script code: it appends to the page and returns a value or raises. *)
Definition UI (A : Type) : Type := list Element -> result A * list Element.

Definition ret {A : Type} (a : A) : UI A := fun page => (Ok a, page).

Definition bind {A B : Type} (m : UI A) (k : A -> UI B) : UI B :=
  fun page =>
    match m page with
    | (Ok a, page') => k a page'
    | (Raise e, page') => (Raise e, page')
    end.

Definition lift {A : Type} (r : result A) : UI A := fun page => (r, page).

Definition show (e : Element) : UI unit := fun page => (Ok tt, page ++ [e]).

(** [try: m  except Exception as e: handler e] *)
Definition try_except {A : Type} (m : UI A) (handler : exn -> UI A) : UI A :=
  fun page =>
    match m page with
    | (Ok a, page') => (Ok a, page')
    | (Raise e, page') => handler e page'
    end.

Declare Scope ui_scope.
Delimit Scope ui_scope with ui.
Notation "x <- m ;; k" := (bind m (fun x => k))
  (at level 100, m at next level, right associativity) : ui_scope.
Notation "m ;;; k" := (bind m (fun _ => k))
  (at level 100, right associativity) : ui_scope.

Definition st_error (msg : string) : UI unit := show (StError msg).
Definition st_info (msg : string) : UI unit := show (StInfo msg).

(** ** pandas operations *)

Fixpoint assoc {A : Type} (key : string) (l : list (string * A)) : option A :=
  match l with
  | [] => None
  | (k, v) :: rest => if String.eqb k key then Some v else assoc key rest
  end.

(** [df[key]], the cells of a column. *)
Definition getitem (df : DataFrame) (key : string) : result (list float64) :=
  match assoc key (df_columns df) with
  | Some values => Ok values
  | None => Raise (KeyError key)
  end.

(** [df[key]] as a series carrying the frame's index. *)
Definition getitem_series (df : DataFrame) (key : string) : result Series :=
  match getitem df key with
  | Ok values => Ok (combine (df_index df) values)
  | Raise e => Raise e
  end.

(** [values.iloc[i]], a negative [i] counting from the end. *)
Definition iloc (values : list float64) (i : Z) : result float64 :=
  let n := Z.of_nat (length values) in
  let j := if (i <? 0)%Z then (i + n)%Z else i in
  if ((0 <=? j) && (j <? n))%Z
  then match nth_error values (Z.to_nat j) with
       | Some v => Ok v
       | None => Raise (IndexError "single positional indexer is out-of-bounds")
       end
  else Raise (IndexError "single positional indexer is out-of-bounds").

(** ['sub' in s] on strings. *)
Definition contains (sub s : string) : bool :=
  match index 0 sub s with Some _ => true | None => false end.

Fixpoint set_column (cols : list (string * list float64)) (key : string)
    (values : list float64) : list (string * list float64) :=
  match cols with
  | [] => [(key, values)]
  | (k, v) :: rest =>
      if String.eqb k key then (key, values) :: rest
      else (k, v) :: set_column rest key values
  end.

Fixpoint lookup (t : Timestamp) (s : Series) : option float64 :=
  match s with
  | [] => None
  | (t', v) :: rest => if (t' =? t)%Z then Some v else lookup t rest
  end.

Fixpoint is_unique (l : list Timestamp) : bool :=
  match l with
  | [] => true
  | t :: rest => negb (existsb (Z.eqb t) rest) && is_unique rest
  end.

Definition index_equals (a b : list Timestamp) : bool :=
  if list_eq_dec Z.eq_dec a b then true else false.

(** [DataFrame._ensure_valid_index]: a frame without rows takes the index
    of the first non-empty series it is given. *)
Definition ensure_valid_index (df : DataFrame) (value : Series) : DataFrame :=
  if (length (df_index df) =? 0)%nat && negb (length value =? 0)%nat
  then mkDataFrame (map fst value)
         (map (fun c => (fst c, repeat NaN (length value))) (df_columns df))
  else df.

(** [_reindex_for_setitem]: the series is conformed to the frame's index;
    a label it lacks gives NaN, a label only it has is dropped, and
    reindexing a series with duplicate labels raises. *)
Definition reindex_for_setitem (value : Series) (index : list Timestamp)
    : result (list float64) :=
  if index_equals (map fst value) index || (length index =? 0)%nat
  then Ok (map snd value)
  else if negb (is_unique (map fst value))
  then Raise (ValueError "cannot reindex on an axis with duplicate labels")
  else Ok (map (fun t => match lookup t value with Some v => v | None => NaN end)
             index).

(** [df[key] = value] for a series [value]. *)
Definition setitem_series (df : DataFrame) (key : string) (value : Series)
    : result DataFrame :=
  let df := ensure_valid_index df value in
  match reindex_for_setitem value (df_index df) with
  | Ok values => Ok (mkDataFrame (df_index df) (set_column (df_columns df) key values))
  | Raise e => Raise e
  end.

(** [df[key] = values] for a column computed from columns of [df] itself:
    it carries the frame's index, so no realignment takes place. *)
Definition setitem (df : DataFrame) (key : string) (values : list float64)
    : DataFrame :=
  mkDataFrame (df_index df) (set_column (df_columns df) key values).

(** Row [i] has no missing cell. *)
Definition row_complete (cols : list (string * list float64)) (i : nat) : bool :=
  forallb (fun c => notna (nth i (snd c) NaN)) cols.

Definition select_rows {A : Type} (mask : list bool) (l : list A) : list A :=
  map snd (filter fst (combine mask l)).

(** [df.dropna()]: the rows with a NaN in some column are removed. *)
Definition dropna (df : DataFrame) : DataFrame :=
  let mask := map (row_complete (df_columns df)) (seq 0 (length (df_index df))) in
  mkDataFrame (select_rows mask (df_index df))
    (map (fun c => (fst c, select_rows mask (snd c))) (df_columns df)).

(** Arithmetic between two columns of one frame, and with a scalar. *)
Fixpoint map2 {A B C : Type} (f : A -> B -> C) (a : list A) (b : list B) : list C :=
  match a, b with
  | x :: a', y :: b' => f x y :: map2 f a' b'
  | _, _ => []
  end.

(** The trailing window of (at most) [w] cells that ends at row [i]. *)
Definition window_at {A : Type} (w i : nat) (l : list A) : list A :=
  skipn (i + 1 - w) (firstn (i + 1) l).

(** [rolling(window=w)] converts infinities to NaN before the kernels run
    ([BaseWindow._prep_values]). *)
Definition prep_values (values : list float64) : list float64 :=
  map (fun x => if isinf x then NaN else x) values.

Definition rolling_apply (w : nat) (kernel : list float64 -> float64)
    (values : list float64) : list float64 :=
  let v := prep_values values in
  map (fun i => kernel (window_at w i v)) (seq 0 (length v)).

(** The observations of a window: its cells that are not NaN. *)
Definition observations (win : list float64) : list float64 := filter notna win.

(** Sum of squared differences from the mean of [obs]. *)
Definition ssqdm (obs : list float64) : float64 :=
  let avg := fdiv (fsum obs) (of_nat (length obs)) in
  fsum (map (fun v => fmul (fsub v avg) (fsub v avg)) obs).

(** The kernel of [rolling(...).mean()]: the mean of the observations when
    there are at least [minp] of them ([min_periods] defaults to the
    window). *)
Definition roll_mean (minp : nat) (win : list float64) : float64 :=
  let obs := observations win in
  let nobs := length obs in
  if (minp <=? nobs)%nat && (0 <? nobs)%nat
  then fdiv (fsum obs) (of_nat nobs)
  else NaN.

(** The kernel of [rolling(...).var(ddof)]. *)
Definition roll_var (minp ddof : nat) (win : list float64) : float64 :=
  let obs := observations win in
  let nobs := length obs in
  if (minp <=? nobs)%nat && (ddof <? nobs)%nat
  then if (nobs =? 1)%nat then Finite 0
       else fdiv (ssqdm obs) (of_nat (nobs - ddof))
  else NaN.

Definition rolling_mean (w : nat) (values : list float64) : list float64 :=
  rolling_apply w (roll_mean w) values.

(** [nanops.nanvar]: two passes over the cells that are not NaN. *)
Definition nanvar (ddof : nat) (values : list float64) : float64 :=
  let obs := observations values in
  let count := length obs in
  if (count <=? ddof)%nat then NaN
  else
    let avg := fdiv (fsum obs) (of_nat count) in
    let sqr := map (fun v => fmul (fsub avg v) (fsub avg v)) obs in
    fdiv (fsum sqr) (of_nat (count - ddof)).

(** [Series.mean()] (NaN skipped; NaN on no observation, as 0/0). *)
Definition Series_mean (values : list float64) : float64 :=
  let obs := observations values in
  fdiv (fsum obs) (of_nat (length obs)).

(** [Series.min()] and [Series.max()] (NaN skipped, NaN on no observation). *)
Definition fmin (x y : float64) : float64 := if fle x y then x else y.
Definition fmax (x y : float64) : float64 := if fle x y then y else x.

Definition Series_min (values : list float64) : float64 :=
  match observations values with
  | [] => NaN
  | v :: rest => fold_left fmin rest v
  end.

Definition Series_max (values : list float64) : float64 :=
  match observations values with
  | [] => NaN
  | v :: rest => fold_left fmax rest v
  end.

Fixpoint insert_sorted (x : float64) (l : list float64) : list float64 :=
  match l with
  | [] => [x]
  | y :: rest => if fle x y then x :: l else y :: insert_sorted x rest
  end.

Definition sort_values (l : list float64) : list float64 :=
  fold_right insert_sorted [] l.

(** numpy's [_lerp] between two order statistics. *)
Definition lerp (a b : float64) (t : Q) : float64 :=
  let diff := fsub b a in
  if Qle_bool (1 # 2) t
  then fsub b (fmul diff (Finite (1 - t)))
  else fadd a (fmul diff (Finite t)).

(** [Series.quantile(q)], linear interpolation between order statistics. *)
Definition Series_quantile (values : list float64) (q : Q) : float64 :=
  let sorted := sort_values (observations values) in
  match sorted with
  | [] => NaN
  | _ =>
      let n := length sorted in
      let pos := q * inject_Z (Z.of_nat (n - 1)) in
      let lo := Z.to_nat (Qfloor pos) in
      let hi := Nat.min (lo + 1) (n - 1) in
      lerp (nth lo sorted NaN) (nth hi sorted NaN) (pos - inject_Z (Qfloor pos))
  end.

(** [Series.median()]: the middle observation, or the mean of the two
    middle ones. *)
Definition Series_median (values : list float64) : float64 :=
  let sorted := sort_values (observations values) in
  let n := length sorted in
  if (n =? 0)%nat then NaN
  else if Nat.odd n then nth (n / 2) sorted NaN
  else fdiv (fadd (nth (n / 2 - 1) sorted NaN) (nth (n / 2) sorted NaN)) (Finite 2).

(** [(values <= x).mean() * 100]: the comparison gives a Boolean column,
    whose mean counts True as 1 and False as 0. *)
Definition bool_mean (bs : list bool) : float64 :=
  fdiv (fsum (map (fun b : bool => if b then Finite 1 else Finite 0) bs))
       (of_nat (length bs)).

Definition percentile_of (values : list float64) (x : float64) : float64 :=
  fmul (bool_mean (map (fun v => fle v x) values)) (Finite 100).

(** [str(n)] for a non-negative integer. *)
Definition str_nat (n : nat) : string := NilEmpty.string_of_uint (Nat.to_uint n).

Section Script.

Variable sqrtQ : Q -> Q.

(** [Series.std()]: ddof defaults to 1. *)
Definition Series_std (values : list float64) : float64 :=
  fsqrt sqrtQ (nanvar 1 values).

(** [rolling(window=w).std()]: ddof defaults to 1. *)
Definition rolling_std (w : nat) (values : list float64) : list float64 :=
  map (zsqrt sqrtQ) (rolling_apply w (roll_var w 1) values).

(** The market-data client: [yf.download(symbol, start=..., end=...)]
    returns a frame or raises. *)
Variable yf_download : string -> Date -> Date -> result DataFrame.

(** The nested helper of [get_data]. *)
Definition get_close_price (data : DataFrame) : result Series :=
  if existsb (String.eqb "Adj Close") (columns data)
  then getitem_series data "Adj Close"
  else if existsb (String.eqb "Close") (columns data)
  then getitem_series data "Close"
  else
    match find (fun col => contains "Adj Close" col || contains "Close" col)
               (columns data) with
    | Some col => getitem_series data col
    | None =>
        match rev (df_columns data) with
        | (_, values) :: _ => Ok (combine (df_index data) values)
        | [] => Raise (IndexError "single positional indexer is out-of-bounds")
        end
    end.

(** Lines 70-76 of [get_data]: the two close prices side by side on the
    index of the first, without the incomplete rows. *)
Definition combined (vix_data sp500_data : DataFrame) : result DataFrame :=
  (let combined_data := DataFrame_new in
   vix_close <- get_close_price vix_data ;;
   combined_data <- setitem_series combined_data "VIX" vix_close ;;
   sp500_close <- get_close_price sp500_data ;;
   combined_data <- setitem_series combined_data "SP500" sp500_close ;;
   Ok (dropna combined_data))%res.

(** Lines 82-95 of [get_data]: the ratio, its moving average and the
    Bollinger bands, with the three local constants ([ma_window],
    [bb_period], [bb_std]) as parameters. *)
Definition indicators (ma_window bb_period : nat) (bb_std : float64)
    (combined_data : DataFrame) : result DataFrame :=
  (vix <- getitem combined_data "VIX" ;;
   sp500 <- getitem combined_data "SP500" ;;
   let combined_data :=
     setitem combined_data "Ratio"
       (map (fun x => fmul x (Finite 1000)) (map2 fdiv vix sp500)) in
   ratio <- getitem combined_data "Ratio" ;;
   let combined_data :=
     setitem combined_data ("Ratio_MA_" ++ str_nat ma_window)
       (rolling_mean ma_window ratio) in
   ratio <- getitem combined_data "Ratio" ;;
   let combined_data :=
     setitem combined_data "BB_Middle" (rolling_mean bb_period ratio) in
   ratio <- getitem combined_data "Ratio" ;;
   let bb_rolling_std := rolling_std bb_period ratio in
   bb_middle <- getitem combined_data "BB_Middle" ;;
   let combined_data :=
     setitem combined_data "BB_Upper"
       (map2 fadd bb_middle (map (fun x => fmul x bb_std) bb_rolling_std)) in
   bb_middle <- getitem combined_data "BB_Middle" ;;
   let combined_data :=
     setitem combined_data "BB_Lower"
       (map2 fsub bb_middle (map (fun x => fmul x bb_std) bb_rolling_std)) in
   Ok combined_data)%res.

Open Scope ui_scope.

(** [get_data], over the local constants of [indicators]. *)
Definition get_data_with (ma_window bb_period : nat) (bb_std : float64)
    (start_date end_date : Date) : UI (option DataFrame) :=
  try_except
    (vix_data <- lift (yf_download "^VIX" start_date end_date) ;;
     sp500_data <- lift (yf_download "^GSPC" start_date end_date) ;;
     if df_empty vix_data || df_empty sp500_data then
       st_error "Impossibile scaricare i dati. Controlla la connessione internet." ;;;
       ret None
     else
       combined_data <- lift (combined vix_data sp500_data) ;;
       if df_empty combined_data then
         st_error "Nessun dato valido trovato per il periodo selezionato." ;;;
         ret None
       else
         combined_data <- lift (indicators ma_window bb_period bb_std combined_data) ;;
         ret (Some combined_data))
    (fun e =>
       st_error ("Errore nel download dei dati: " ++ str_exn e) ;;;
       st_info "Suggerimento: Prova a modificare l'intervallo di date o riprova più tardi." ;;;
       ret None).

(** [get_data] as the script has it: [ma_window = 20], [bb_period = 20],
    [bb_std = 2]. *)
Definition get_data (start_date end_date : Date) : UI (option DataFrame) :=
  get_data_with 20 20 (Finite 2) start_date end_date.

End Script.

(** ** The script *)

(** The sidebar: the date range and the four check boxes. *)
Record Sidebar : Type := mkSidebar {
  start_date : Date;
  end_date : Date;
  show_ma : bool;
  show_bb : bool;
  show_vix : bool;
  show_sp500 : bool
}.

Section Main.

Variable sqrtQ : Q -> Q.
Variable yf_download : string -> Date -> Date -> result DataFrame.
Variable sidebar : Sidebar.

Open Scope ui_scope.

(** One of the three [st.metric] blocks: the last value of a column and
    its change from the row before. *)
Definition metric (data : DataFrame) (key label : string) : UI unit :=
  column <- lift (getitem data key) ;;
  current <- lift (iloc column (-1)) ;;
  previous <- lift (iloc column (-2)) ;;
  let change := fsub current previous in
  let change_pct := fmul (fdiv change previous) (Finite 100) in
  show (StMetric label current change change_pct).

(** The traces added to the figure, in order. *)
Definition traces (data : DataFrame) : UI (list Trace) :=
  let show_secondary := show_vix sidebar || show_sp500 sidebar in
  let row1 := if show_secondary then Some 1%nat else None in
  ratio <- lift (getitem data "Ratio") ;;
  let fig := [mkTrace "Rapporto VIX/S&P500" ratio row1] in
  fig <- (if show_ma sidebar then
            ma <- lift (getitem data "Ratio_MA_20") ;;
            ret (fig ++ [mkTrace "Media Mobile (20 giorni)" ma row1])
          else ret fig) ;;
  fig <- (if show_bb sidebar then
            upper <- lift (getitem data "BB_Upper") ;;
            lower <- lift (getitem data "BB_Lower") ;;
            middle <- lift (getitem data "BB_Middle") ;;
            ret (fig ++ [mkTrace "Bollinger Superiore" upper row1;
                         mkTrace "Bollinger Inferiore" lower row1;
                         mkTrace "Bollinger Media" middle row1])
          else ret fig) ;;
  if show_secondary then
    fig <- (if show_vix sidebar then
              vix <- lift (getitem data "VIX") ;;
              ret (fig ++ [mkTrace "VIX" vix (Some 2%nat)])
            else ret fig) ;;
    if show_sp500 sidebar then
      vix <- lift (getitem data "VIX") ;;
      sp500 <- lift (getitem data "SP500") ;;
      let norm_factor := fdiv (Series_mean vix) (Series_mean sp500) in
      sp500 <- lift (getitem data "SP500") ;;
      ret (fig ++ [mkTrace "S&P500 (normalizzato)"
                     (map (fun x => fmul x norm_factor) sp500) (Some 2%nat)])
    else ret fig
  else ret fig.

(** The three-way position of the last ratio against the bands, as
    ([bb_position], [bb_color]). *)
Definition bb_position (current_ratio current_bb_upper current_bb_lower : float64)
    : string * string :=
  if fgt current_ratio current_bb_upper
  then ("Sopra la banda superiore (ipercomprato)", "red")%string
  else if flt current_ratio current_bb_lower
  then ("Sotto la banda inferiore (ipervenduto)", "green")%string
  else ("All'interno delle bande", "blue")%string.

(** The left column of the statistics: the summary table and the
    Bollinger position. *)
Definition statistics (data : DataFrame) : UI unit :=
  show (StWrite "Statistiche sul rapporto VIX/S&P500:" []) ;;;
  ratio <- lift (getitem data "Ratio") ;;
  show (StStats [("Media", Series_mean ratio);
                 ("Mediana", Series_median ratio);
                 ("Minimo", Series_min ratio);
                 ("Massimo", Series_max ratio);
                 ("Deviazione Standard", Series_std sqrtQ ratio)]%string) ;;;
  show (StWrite "Posizione rispetto alle Bande di Bollinger:" []) ;;;
  ratio <- lift (getitem data "Ratio") ;;
  current_ratio <- lift (iloc ratio (-1)) ;;
  bb_upper <- lift (getitem data "BB_Upper") ;;
  current_bb_upper <- lift (iloc bb_upper (-1)) ;;
  bb_lower <- lift (getitem data "BB_Lower") ;;
  current_bb_lower <- lift (iloc bb_lower (-1)) ;;
  bb_middle <- lift (getitem data "BB_Middle") ;;
  current_bb_middle <- lift (iloc bb_middle (-1)) ;;
  let position := bb_position current_ratio current_bb_upper current_bb_lower in
  show (StMarkdown ("**Stato attuale**: :" ++ snd position
                    ++ "[" ++ fst position ++ "]")) ;;;
  show (StWrite "Banda superiore: " [current_bb_upper]) ;;;
  show (StWrite "Media: " [current_bb_middle]) ;;;
  show (StWrite "Banda inferiore: " [current_bb_lower]).

(** The right column: the percentile table and the rank of the last
    ratio. *)
Definition percentile_panel (data : DataFrame) : UI unit :=
  let percentiles := [10; 25; 50; 75; 90]%nat in
  ratio <- lift (getitem data "Ratio") ;;
  let percentile_values :=
    map (fun p => Series_quantile ratio (inject_Z (Z.of_nat p) / 100)) percentiles in
  show (StWrite "Percentili del rapporto:" []) ;;;
  show (StStats (combine (map (fun p => str_nat p ++ "%")%string percentiles)
                   percentile_values)) ;;;
  ratio <- lift (getitem data "Ratio") ;;
  current_ratio <- lift (iloc ratio (-1)) ;;
  ratio <- lift (getitem data "Ratio") ;;
  let current_percentile := percentile_of ratio current_ratio in
  show (StWrite "Valore attuale (percentile)" [current_ratio; current_percentile]).

Definition main : UI unit :=
  data <- get_data sqrtQ yf_download (start_date sidebar) (end_date sidebar) ;;
  (match data with
   | Some data =>
       if negb (df_empty data) then
         show (StSubheader "Informazioni sugli Indici") ;;;
         metric data "VIX" "VIX (Ultimo valore)" ;;;
         metric data "SP500" "S&P500 (Ultimo valore)" ;;;
         metric data "Ratio" "Rapporto VIX/S&P500 (×1000)" ;;;
         show (StSubheader "Grafico Storico") ;;;
         fig <- traces data ;;
         show (StPlotlyChart (show_vix sidebar || show_sp500 sidebar) fig) ;;;
         show (StSubheader "📊 Analisi Statistica") ;;;
         statistics data ;;;
         percentile_panel data ;;;
         show (StDataframe data) ;;;
         show (StDownloadButton "📥 Scarica dati CSV" data
                 (start_date sidebar) (end_date sidebar))
       else
         st_error "Nessun dato disponibile per il periodo selezionato. Prova a modificare l'intervallo di date o riprova più tardi."
   | None =>
       st_error "Nessun dato disponibile per il periodo selezionato. Prova a modificare l'intervallo di date o riprova più tardi."
   end) ;;;
  show (StMarkdown "---") ;;;
  show (StCaption "Dati forniti da Yahoo Finance. Aggiornato: ").

End Main.

(** * Notions used to state the properties *)

(** ** Aligned rows *)

(** A row of the aligned series: a timestamp with the VIX close and the
    S&P500 close. *)
Abbreviation Row := (Timestamp * (float64 * float64))%type.

Definition row_vix (r : Row) : float64 := fst (snd r).
Definition row_sp500 (r : Row) : float64 := snd (snd r).

(** The two-column frame that holds the given rows. *)
Definition frame_of_rows (rows : list Row) : DataFrame :=
  mkDataFrame (map fst rows)
    [("VIX"%string, map row_vix rows); ("SP500"%string, map row_sp500 rows)].

(** A row without a missing close. *)
Definition complete (r : Row) : bool := notna (row_vix r) && notna (row_sp500 r).

(** Rows of two series paired position by position. *)
Definition zip_rows (A B : Series) : list Row :=
  map2 (fun x y => (fst x, (snd x, snd y))) A B.

(** Rows of the first series, each with the value the second series has
    at its timestamp. *)
Definition reindexed_rows (A B : Series) : list Row :=
  map (fun x => (fst x, (snd x, match lookup (fst x) B with
                                 | Some v => v
                                 | None => NaN
                                 end))) A.

(** The ratio column of aligned rows. *)
Definition ratio_of (rows : list Row) : list float64 :=
  map (fun x => fmul x (Finite 1000)) (map2 fdiv (map row_vix rows) (map row_sp500 rows)).

Section Table.

Variable sqrtQ : Q -> Q.
Variables (ma_window bb_period : nat) (bb_std : float64).

(** The table [indicators] builds from aligned rows. *)
Definition table (rows : list Row) : DataFrame :=
  let ratio := ratio_of rows in
  let middle := rolling_mean bb_period ratio in
  let band := map (fun x => fmul x bb_std) (rolling_std sqrtQ bb_period ratio) in
  mkDataFrame (map fst rows)
    [("VIX", map row_vix rows);
     ("SP500", map row_sp500 rows);
     ("Ratio", ratio);
     ("Ratio_MA_" ++ str_nat ma_window, rolling_mean ma_window ratio);
     ("BB_Middle", middle);
     ("BB_Upper", map2 fadd middle band);
     ("BB_Lower", map2 fsub middle band)]%string.

End Table.

(** ** Pages *)

(** What the [except] branch of [get_data] leaves on the page. *)
Definition download_failed (e : exn) (page : list Element) : list Element :=
  page ++ [StError ("Errore nel download dei dati: " ++ str_exn e);
           StInfo "Suggerimento: Prova a modificare l'intervallo di date o riprova più tardi."].

(** The last two elements of every page. *)
Definition footer : list Element :=
  [StMarkdown "---"; StCaption "Dati forniti da Yahoo Finance. Aggiornato: "].

(** What [main] appends when [get_data] gave no table. *)
Definition no_data_page : list Element :=
  StError "Nessun dato disponibile per il periodo selezionato. Prova a modificare l'intervallo di date o riprova più tardi."
  :: footer.

Section Parts.

Variable sqrtQ : Q -> Q.

Open Scope ui_scope.

(** The part of [main] before the figure, and the part after it. *)
Definition before_chart (data : DataFrame) : UI unit :=
  show (StSubheader "Informazioni sugli Indici") ;;;
  metric data "VIX" "VIX (Ultimo valore)" ;;;
  metric data "SP500" "S&P500 (Ultimo valore)" ;;;
  metric data "Ratio" "Rapporto VIX/S&P500 (×1000)" ;;;
  show (StSubheader "Grafico Storico").

Definition after_chart (start_date end_date : Date) (data : DataFrame) : UI unit :=
  show (StSubheader "📊 Analisi Statistica") ;;;
  statistics sqrtQ data ;;;
  percentile_panel data ;;;
  show (StDataframe data) ;;;
  show (StDownloadButton "📥 Scarica dati CSV" data start_date end_date).

Close Scope ui_scope.

End Parts.

(** Script code that only appends to the page, the same elements
    whatever the page already shows. *)
Definition appends {A : Type} (m : UI A) : Prop :=
  exists r out, forall page, m page = (r, page ++ out).

(** The figure is the one element of the page that reads the check boxes. *)
Definition is_chart (e : Element) : bool :=
  match e with StPlotlyChart _ _ => true | _ => false end.

Definition without_chart (page : list Element) : list Element :=
  filter (fun e => negb (is_chart e)) page.

(** ** Statistics in the words of the specification *)

(** The sum of the squared deviations from the mean. *)
Definition Qsqdev (qs : list Q) : Q :=
  Qsum (map (fun q => (q - Qmean qs) * (q - Qmean qs)) qs).

(** The two candidate variances: the squared deviations divided by [n]
    (population), or by [n - 1] (sample). *)
Definition population_variance (qs : list Q) : Q :=
  Qsqdev qs / inject_Z (Z.of_nat (length qs)).

Definition sample_variance (qs : list Q) : Q :=
  Qsqdev qs / inject_Z (Z.of_nat (length qs - 1)).

(** The percentile rank: the count of values at or below [v], over the
    total count, times 100. *)
Definition count_le (values : list float64) (v : float64) : nat :=
  length (filter (fun u => fle u v) values).

Definition rank_spec (values : list float64) (v : float64) : float64 :=
  fmul (fdiv (of_nat (count_le values v)) (of_nat (length values))) (Finite 100).

Definition indicator (b : bool) : Q := if b then 1 else 0.

(** ** Sample downloads *)

(** [n] trading days, the days 1 to [n], with the given closes. *)
Definition sample_frame (n : nat) (close : nat -> Q) : DataFrame :=
  mkDataFrame (map Z.of_nat (seq 1 n))
    [("Open"%string, map (fun i => Finite (close i)) (seq 1 n));
     ("Close"%string, map (fun i => Finite (close i)) (seq 1 n))].

(** VIX closes 21, 22, 23, ... and VIX closes flat at 20. *)
Definition rising (i : nat) : Q := inject_Z (Z.of_nat (20 + i)).
Definition flat (i : nat) : Q := 20.

(** A download of [n] days: the given VIX closes, the S&P500 flat at 4000. *)
Definition sample_download (vix_close : nat -> Q) (n : nat)
    (symbol : string) (start_date end_date : Date) : result DataFrame :=
  if String.eqb symbol "^VIX"
  then Ok (sample_frame n vix_close)
  else Ok (sample_frame n (fun _ => 4000)).

(** The aligned rows of that download, and the table [get_data] makes
    of them. *)
Definition sample_rows (vix_close : nat -> Q) (n : nat) : list Row :=
  map (fun i => (Z.of_nat i, (Finite (vix_close i), Finite 4000))) (seq 1 n).

Definition sample_table_with (sqrtQ : Q -> Q) (vix_close : nat -> Q) (n : nat)
    : DataFrame :=
  table sqrtQ 20 20 (Finite 2) (sample_rows vix_close n).

Definition sample_table : (nat -> Q) -> nat -> DataFrame :=
  sample_table_with sqrt_floor.

(** Two downloads with gaps: the first lacks day 3 and has no close on
    day 4, the second lacks day 1. *)
Definition gap_vix : DataFrame :=
  mkDataFrame [1; 2; 4; 5]%Z
    [("Close"%string, [Finite 21; Finite 22; NaN; Finite 25])].

Definition gap_sp500 : DataFrame :=
  mkDataFrame [2; 3; 4; 5]%Z
    [("Close"%string, [Finite 4000; Finite 4010; Finite 4020; Finite 4030])].

(** Their aligned series: the days 2 and 5. *)
Definition gap_aligned : DataFrame :=
  mkDataFrame [2; 5]%Z
    [("VIX"%string, [Finite 22; Finite 25]);
     ("SP500"%string, [Finite 4000; Finite 4030])].

(** Two trading days; the S&P500 closes at 0 on the second. *)
Definition zero_download (symbol : string) (start_date end_date : Date)
    : result DataFrame :=
  if String.eqb symbol "^VIX"
  then Ok (mkDataFrame [1; 2]%Z [("Close"%string, [Finite 20; Finite 20])])
  else Ok (mkDataFrame [1; 2]%Z [("Close"%string, [Finite 4000; Finite 0])]).

(** A download without rows for the S&P500. *)
Definition empty_download (symbol : string) (start_date end_date : Date)
    : result DataFrame :=
  if String.eqb symbol "^VIX"
  then Ok (mkDataFrame [1]%Z [("Close"%string, [Finite 20])])
  else Ok (mkDataFrame [] [("Close"%string, [])]).

(** Two trading days with the ratios 1 and 3. *)
Definition two_day_download (symbol : string) (start_date end_date : Date)
    : result DataFrame :=
  if String.eqb symbol "^VIX"
  then Ok (mkDataFrame [1; 2]%Z [("Close"%string, [Finite 4; Finite 12])])
  else Ok (mkDataFrame [1; 2]%Z [("Close"%string, [Finite 4000; Finite 4000])]).

Definition two_day_rows : list Row :=
  [(1%Z, (Finite 4, Finite 4000)); (2%Z, (Finite 12, Finite 4000))].

(** One trading day in the range. *)
Definition one_day_download (symbol : string) (start_date end_date : Date)
    : result DataFrame :=
  if String.eqb symbol "^VIX"
  then Ok (mkDataFrame [1]%Z [("Close"%string, [Finite 20])])
  else Ok (mkDataFrame [1]%Z [("Close"%string, [Finite 4000])]).

(** ** Further notions *)

(** The error and information messages of the script. *)
Definition is_message (e : Element) : bool :=
  match e with
  | StError _ | StInfo _ => true
  | _ => false
  end.

(** The names of the traces the check boxes select, in the order of the
    figure. *)
Definition trace_names (sidebar : Sidebar) : list string :=
  (["Rapporto VIX/S&P500"%string]
     ++ (if show_ma sidebar then ["Media Mobile (20 giorni)"%string] else [])
     ++ (if show_bb sidebar
         then ["Bollinger Superiore"%string; "Bollinger Inferiore"%string;
               "Bollinger Media"%string]
         else [])
     ++ (if show_vix sidebar then ["VIX"%string] else [])
     ++ (if show_sp500 sidebar then ["S&P500 (normalizzato)"%string] else []))%list.

(** The network is down. *)
Definition failing_download (symbol : string) (start_date end_date : Date)
    : result DataFrame :=
  Raise (DownloadError "connection refused").

(** The S&P500 download has the day 2 twice. *)
Definition duplicate_download (symbol : string) (start_date end_date : Date)
    : result DataFrame :=
  if String.eqb symbol "^VIX"
  then Ok (mkDataFrame [1; 2]%Z [("Close"%string, [Finite 20; Finite 21])])
  else Ok (mkDataFrame [1; 2; 2]%Z
             [("Close"%string, [Finite 4000; Finite 4010; Finite 4020])]).

(** The S&P500 closes at 0 on day 1 and at 4000 afterwards. *)
Definition zero_first (i : nat) : Q := if (i =? 1)%nat then 0 else 4000.

(** A download of [n] days: the VIX flat at 20, the S&P500 at 0 on the
    first day. *)
Definition zero_first_download (n : nat)
    (symbol : string) (start_date end_date : Date) : result DataFrame :=
  if String.eqb symbol "^VIX"
  then Ok (sample_frame n flat)
  else Ok (sample_frame n zero_first).

Definition zero_first_rows (n : nat) : list Row :=
  map (fun i => (Z.of_nat i, (Finite (flat i), Finite (zero_first i)))) (seq 1 n).

(** The arithmetic mean of cells, in the arithmetic of the cells. *)
Definition arithmetic_mean (cells : list float64) : float64 :=
  fdiv (fsum cells) (of_nat (length cells)).

(** * Properties *)

(** ** Cells *)

Lemma feq_refl (x : float64) : x =f= x.
Proof. destruct x; simpl; auto with qarith. Qed.

Lemma feq_sym (x y : float64) : x =f= y -> y =f= x.
Proof. destruct x, y; simpl; auto with qarith. Qed.

Lemma feq_trans (x y z : float64) : x =f= y -> y =f= z -> x =f= z.
Proof.
  destruct x, y, z; simpl; try tauto.
  intros H1 H2. now rewrite H1.
Qed.

Lemma Qle_bool_true (a b : Q) : a <= b -> Qle_bool a b = true.
Proof. apply Qle_bool_iff. Qed.

Lemma Qle_bool_false (a b : Q) : b < a -> Qle_bool a b = false.
Proof.
  intros H. destruct (Qle_bool a b) eqn:E; [|reflexivity].
  apply Qle_bool_iff in E. lra.
Qed.

Lemma Qeq_bool_false (a b : Q) : ~ a == b -> Qeq_bool a b = false.
Proof.
  intros H. destruct (Qeq_bool a b) eqn:E; [|reflexivity].
  apply Qeq_bool_iff in E. contradiction.
Qed.

Lemma Qeq_bool_true (a b : Q) : a == b -> Qeq_bool a b = true.
Proof. apply Qeq_bool_iff. Qed.

Lemma inject_nat_pos (n : nat) : (0 < n)%nat -> 0 < inject_Z (Z.of_nat n).
Proof.
  intros H. replace 0 with (inject_Z 0) by reflexivity.
  rewrite <- Zlt_Qlt. lia.
Qed.

Lemma inject_nat_nonneg (n : nat) : 0 <= inject_Z (Z.of_nat n).
Proof.
  replace 0 with (inject_Z 0) by reflexivity.
  rewrite <- Zle_Qle. lia.
Qed.

(** Sums of finite cells are sums of rationals. *)
Lemma fold_fadd_Finite (qs : list Q) (a : Q) :
  fold_left fadd (map Finite qs) (Finite a) = Finite (fold_left Qplus qs a).
Proof.
  revert a. induction qs as [|q qs IH]; intros a; simpl; [reflexivity|].
  apply IH.
Qed.

Lemma fsum_Finite (qs : list Q) : fsum (map Finite qs) = Finite (Qsum qs).
Proof. apply fold_fadd_Finite. Qed.

Lemma fold_Qplus_acc (qs : list Q) (a : Q) :
  fold_left Qplus qs a == a + Qsum qs.
Proof.
  unfold Qsum. revert a. induction qs as [|q qs IH]; intros a; simpl.
  - ring.
  - rewrite IH. rewrite (IH (0 + q)). ring.
Qed.

Lemma Qsum_cons (q : Q) (qs : list Q) : Qsum (q :: qs) == q + Qsum qs.
Proof. unfold Qsum at 1. simpl. rewrite fold_Qplus_acc. ring. Qed.

Lemma Qsum_map_ext (A : Type) (f g : A -> Q) (l : list A) :
  (forall x, In x l -> f x == g x) -> Qsum (map f l) == Qsum (map g l).
Proof.
  induction l as [|x l IH]; intros H; simpl; [reflexivity|].
  rewrite !Qsum_cons. rewrite IH by (intros; apply H; now right).
  rewrite (H x) by now left. reflexivity.
Qed.

Lemma Qsum_nonneg (l : list Q) : Forall (fun q => 0 <= q) l -> 0 <= Qsum l.
Proof.
  induction 1 as [|q l Hq _ IH]; [unfold Qsum; simpl; lra|].
  rewrite Qsum_cons. lra.
Qed.

Lemma Qsum_zero (l : list Q) : Forall (fun q => q == 0) l -> Qsum l == 0.
Proof.
  induction 1 as [|q l Hq _ IH]; [reflexivity|].
  rewrite Qsum_cons, Hq, IH. ring.
Qed.

Lemma Qsum_repeat (c : Q) (n : nat) :
  Qsum (repeat c n) == inject_Z (Z.of_nat n) * c.
Proof.
  induction n as [|n IH].
  - simpl. unfold Qsum. simpl. ring.
  - cbn [repeat]. rewrite Qsum_cons, IH.
    rewrite Nat2Z.inj_succ. unfold Z.succ. rewrite inject_Z_plus. ring.
Qed.

(** The finite cells of a list are its observations, and [prep_values]
    keeps them. *)
Lemma observations_Finite (qs : list Q) :
  observations (map Finite qs) = map Finite qs.
Proof.
  unfold observations. induction qs as [|q qs IH]; simpl; [reflexivity|].
  now rewrite IH.
Qed.

Lemma prep_values_Finite (qs : list Q) : prep_values (map Finite qs) = map Finite qs.
Proof.
  unfold prep_values. rewrite map_map. reflexivity.
Qed.

Lemma observations_length (l : list float64) :
  (length (observations l) <= length l)%nat.
Proof. apply filter_length_le. Qed.

(** ** Rolling windows *)

Lemma window_at_length (A : Type) (w i : nat) (l : list A) :
  (i < length l)%nat ->
  length (window_at w i l) = Nat.min (i + 1) w.
Proof.
  intros H. unfold window_at.
  rewrite length_skipn, length_firstn. lia.
Qed.

Lemma window_at_map (A B : Type) (f : A -> B) (w i : nat) (l : list A) :
  window_at w i (map f l) = map f (window_at w i l).
Proof.
  unfold window_at. now rewrite firstn_map, skipn_map.
Qed.

Lemma prep_values_length (l : list float64) : length (prep_values l) = length l.
Proof. apply length_map. Qed.

Lemma rolling_apply_length (w : nat) (k : list float64 -> float64) (l : list float64) :
  length (rolling_apply w k l) = length l.
Proof.
  unfold rolling_apply. now rewrite length_map, length_seq, prep_values_length.
Qed.

Lemma rolling_apply_nth (w : nat) (k : list float64 -> float64)
    (l : list float64) (i : nat) :
  (i < length l)%nat ->
  nth_error (rolling_apply w k l) i = Some (k (prep_values (window_at w i l))).
Proof.
  intros H. unfold rolling_apply.
  rewrite nth_error_map.
  rewrite nth_error_seq.
  rewrite prep_values_length.
  destruct (Nat.ltb_spec i (length l)) as [_|Hge]; [|lia].
  simpl. unfold prep_values at 2. now rewrite <- window_at_map.
Qed.

(** A window that is not full has fewer than [w] observations. *)
Lemma roll_mean_short (w : nat) (win : list float64) :
  (length win < w)%nat -> roll_mean w win = NaN.
Proof.
  intros H. unfold roll_mean.
  pose proof (observations_length win) as Hl.
  destruct (Nat.leb_spec w (length (observations win))) as [Hle|_]; [lia|].
  reflexivity.
Qed.

(** On a full window of finite cells the kernel is the arithmetic mean. *)
Lemma roll_mean_Finite (w : nat) (qs : list Q) :
  (0 < w)%nat -> length qs = w ->
  roll_mean w (map Finite qs) = Finite (Qsum qs / inject_Z (Z.of_nat w)).
Proof.
  intros Hw Hl. unfold roll_mean.
  rewrite observations_Finite, length_map, Hl.
  rewrite Nat.leb_refl.
  destruct (Nat.ltb_spec 0 w) as [_|?]; [|lia].
  simpl. rewrite fsum_Finite. unfold of_nat, fdiv.
  rewrite Qeq_bool_false; [reflexivity|].
  pose proof (inject_nat_pos w Hw). lra.
Qed.

Lemma rolling_mean_length (w : nat) (l : list float64) :
  length (rolling_mean w l) = length l.
Proof. apply rolling_apply_length. Qed.

(** The moving average at a row before the window is full. *)
Lemma rolling_mean_undefined (w : nat) (l : list float64) (i : nat) :
  (i < length l)%nat -> (i + 1 < w)%nat ->
  nth_error (rolling_mean w l) i = Some NaN.
Proof.
  intros Hi Hw. unfold rolling_mean.
  rewrite rolling_apply_nth by assumption.
  rewrite roll_mean_short; [reflexivity|].
  unfold prep_values. rewrite length_map, window_at_length by assumption. lia.
Qed.

(** The moving average at a row with a full window of finite cells. *)
Lemma rolling_mean_defined (w : nat) (l : list float64) (i : nat) (qs : list Q) :
  (0 < w)%nat -> (i < length l)%nat -> (w <= i + 1)%nat ->
  window_at w i l = map Finite qs ->
  nth_error (rolling_mean w l) i = Some (Finite (Qsum qs / inject_Z (Z.of_nat w))).
Proof.
  intros Hw Hi Hfull Hwin. unfold rolling_mean.
  rewrite rolling_apply_nth by assumption.
  rewrite Hwin, prep_values_Finite.
  rewrite roll_mean_Finite; [reflexivity|assumption|].
  rewrite <- (length_map Finite), <- Hwin, window_at_length by assumption. lia.
Qed.
Lemma select_rows_map (A B : Type) (g : A -> B) (mask : list bool) (l : list A) :
  select_rows mask (map g l) = map g (select_rows mask l).
Proof.
  unfold select_rows. revert l.
  induction mask as [|m mask IH]; intros [|x l]; simpl; try reflexivity.
  destruct m; simpl; now rewrite IH.
Qed.

Lemma select_rows_filter (A : Type) (p : A -> bool) (f : nat -> bool)
    (l : list A) (s : nat) :
  (forall j x, nth_error l j = Some x -> f (s + j)%nat = p x) ->
  select_rows (map f (seq s (length l))) l = filter p l.
Proof.
  unfold select_rows. revert s.
  induction l as [|x l IH]; intros s H; simpl; [reflexivity|].
  pose proof (H 0%nat x eq_refl) as H0. rewrite Nat.add_0_r in H0. rewrite H0.
  assert (IH' : map snd (filter fst (combine (map f (seq (S s) (length l))) l)) = filter p l).
  { apply IH. intros j y Hj. rewrite <- (H (S j) y Hj). f_equal. lia. }
  destruct (p x); simpl; now rewrite IH'.
Qed.

(** [dropna] on a two-column frame given by rows keeps the complete rows. *)
Lemma dropna_frame_of_rows (rows : list Row) :
  dropna (frame_of_rows rows) = frame_of_rows (filter complete rows).
Proof.
  unfold dropna, frame_of_rows. cbn [df_index df_columns map fst snd].
  rewrite length_map.
  assert (Hm : forall (B : Type) (g : Row -> B),
    select_rows
      (map (row_complete [("VIX"%string, map row_vix rows);
                          ("SP500"%string, map row_sp500 rows)])
           (seq 0 (length rows))) (map g rows) = map g (filter complete rows)).
  { intros B g. rewrite select_rows_map. f_equal.
    apply select_rows_filter. intros j r Hj. simpl.
    unfold row_complete, complete. cbn [forallb snd].
    rewrite !(nth_error_nth _ _ _ (map_nth_error _ _ _ Hj)).
    now rewrite andb_true_r. }
  now rewrite !Hm.
Qed.

Lemma lookup_In (t : Timestamp) (s : Series) (v : float64) :
  lookup t s = Some v -> In (t, v) s.
Proof.
  induction s as [|[t' v'] s IH]; simpl; [discriminate|].
  destruct (Z.eqb_spec t' t) as [->|_].
  - intros [= ->]. now left.
  - intros H. right. now apply IH.
Qed.

Lemma index_equals_true (a b : list Timestamp) : index_equals a b = true -> a = b.
Proof. unfold index_equals. destruct (list_eq_dec Z.eq_dec a b); [auto|discriminate]. Qed.

Lemma index_equals_refl (a : list Timestamp) : index_equals a a = true.
Proof. unfold index_equals. destruct (list_eq_dec Z.eq_dec a a); [auto|contradiction]. Qed.

Lemma setitem_vix (A : Series) :
  setitem_series DataFrame_new "VIX" A
  = Ok (mkDataFrame (map fst A) [("VIX"%string, map snd A)]).
Proof.
  unfold setitem_series, ensure_valid_index, reindex_for_setitem.
  destruct A as [|x A]; cbn [DataFrame_new df_index df_columns length Nat.eqb andb negb map].
  - reflexivity.
  - rewrite index_equals_refl. reflexivity.
Qed.

Lemma zip_rows_spec (A B : Series) :
  map fst B = map fst A ->
  map fst (zip_rows A B) = map fst A
  /\ map row_vix (zip_rows A B) = map snd A
  /\ map row_sp500 (zip_rows A B) = map snd B
  /\ (forall r, In r (zip_rows A B) ->
        In (fst r, row_vix r) A /\ In (fst r, row_sp500 r) B).
Proof.
  revert B. induction A as [|[t a] A IH]; intros [|[t' b] B] H;
    try discriminate H.
  - repeat split; auto; intros r [].
  - injection H as Ht HB. subst t'.
    destruct (IH B HB) as (H1 & H2 & H3 & H4).
    unfold zip_rows in *. cbn [map2 map fst snd row_vix row_sp500].
    unfold row_vix, row_sp500 in *. cbn [fst snd].
    rewrite H1, H2, H3. repeat split; auto.
    + destruct H as [<-|H]; [now left|right; now apply H4].
    + destruct H as [<-|H]; [now left|right; now apply H4].
Qed.

Lemma reindexed_rows_spec (A B : Series) :
  map fst (reindexed_rows A B) = map fst A
  /\ map row_vix (reindexed_rows A B) = map snd A
  /\ map row_sp500 (reindexed_rows A B)
     = map (fun t => match lookup t B with Some v => v | None => NaN end) (map fst A)
  /\ (forall r, In r (reindexed_rows A B) -> notna (row_sp500 r) = true ->
        In (fst r, row_vix r) A /\ In (fst r, row_sp500 r) B).
Proof.
  unfold reindexed_rows. rewrite !map_map. unfold row_vix, row_sp500. simpl.
  repeat split; auto.
  - apply in_map_iff in H as ([t a] & <- & Hin). now simpl.
  - apply in_map_iff in H as ([t a] & <- & Hin). simpl in *.
    destruct (lookup t B) eqn:E; [now apply lookup_In|discriminate].
Qed.

Lemma setitem_two (A B : Series) (d2 : DataFrame) :
  setitem_series (mkDataFrame (map fst A) [("VIX"%string, map snd A)]) "SP500" B = Ok d2 ->
  exists rows, d2 = frame_of_rows rows
    /\ (forall r, In r rows -> complete r = true ->
          In (fst r, row_vix r) A /\ In (fst r, row_sp500 r) B)
    /\ (map fst rows = map fst A \/ Forall (fun r => row_vix r = NaN) rows).
Proof.
  unfold setitem_series, ensure_valid_index.
  cbn [df_index df_columns]. rewrite length_map.
  destruct A as [|x A].
  - (* the frame has no row: it takes the index of B *)
    cbn [length Nat.eqb andb].
    destruct B as [|y B]; cbn [length Nat.eqb negb df_index df_columns map].
    + unfold reindex_for_setitem. simpl. intros [= <-].
      exists []. repeat split; auto; intros r [].
    + unfold reindex_for_setitem.
      replace (fst y :: map fst B) with (map fst (y :: B)) by reflexivity.
      rewrite index_equals_refl. cbn [orb set_column String.eqb Ascii.eqb].
      simpl String.eqb. cbn match. intros [= <-].
      exists (map (fun y => (fst y, (NaN, snd y))) (y :: B)).
      split; [|split].
      * unfold frame_of_rows. rewrite !map_map. unfold row_vix, row_sp500. cbn [fst snd].
        f_equal. f_equal. f_equal. simpl. f_equal.
        clear. induction B; simpl; congruence.
      * intros r Hr Hc. apply in_map_iff in Hr as (z & <- & _).
        unfold complete, row_vix in Hc. simpl in Hc. discriminate.
      * right. apply Forall_forall. intros r Hr.
        apply in_map_iff in Hr as (z & <- & _). reflexivity.
  - cbn [length Nat.eqb andb df_index df_columns].
    unfold reindex_for_setitem.
    destruct (index_equals (map fst B) (map fst (x :: A))) eqn:E.
    + apply index_equals_true in E.
      cbn [orb]. simpl String.eqb. cbn [set_column]. simpl String.eqb. cbn match.
      intros [= <-].
      destruct (zip_rows_spec (x :: A) B E) as (H1 & H2 & H3 & H4).
      exists (zip_rows (x :: A) B). unfold frame_of_rows.
      rewrite H1, H2, H3. repeat split; auto; now apply H4.
    + cbn [orb length Nat.eqb].
      destruct (is_unique (map fst B)); cbn [negb]; [|discriminate].
      simpl String.eqb. cbn [set_column]. simpl String.eqb. cbn match.
      intros [= <-].
      destruct (reindexed_rows_spec (x :: A) B) as (H1 & H2 & H3 & H4).
      exists (reindexed_rows (x :: A) B). unfold frame_of_rows.
      rewrite H1, H2, H3. repeat split; auto.
      * apply H4; auto. unfold complete in H0. now apply andb_true_iff in H0.
      * apply H4; auto. unfold complete in H0. now apply andb_true_iff in H0.
Qed.

Lemma combined_rows (vix_data sp500_data df : DataFrame) (A B : Series) :
  combined vix_data sp500_data = Ok df ->
  get_close_price vix_data = Ok A ->
  get_close_price sp500_data = Ok B ->
  exists rows, df = frame_of_rows (filter complete rows)
    /\ (forall r, In r rows -> complete r = true ->
          In (fst r, row_vix r) A /\ In (fst r, row_sp500 r) B)
    /\ (map fst rows = map fst A \/ Forall (fun r => row_vix r = NaN) rows).
Proof.
  unfold combined. intros H HA HB. rewrite HA in H. cbn [rbind] in H.
  rewrite setitem_vix in H. cbn [rbind] in H. rewrite HB in H. cbn [rbind] in H.
  destruct (setitem_series _ "SP500" B) as [d2|e] eqn:E; [|discriminate].
  cbn [rbind] in H. injection H as <-.
  destruct (setitem_two A B d2 E) as (rows & -> & H1 & H2).
  exists rows. rewrite dropna_frame_of_rows. auto.
Qed.

Lemma combined_inv (vix_data sp500_data df : DataFrame) :
  combined vix_data sp500_data = Ok df ->
  exists A B, get_close_price vix_data = Ok A /\ get_close_price sp500_data = Ok B.
Proof.
  unfold combined. intros H.
  destruct (get_close_price vix_data) as [A|e]; [|discriminate].
  cbn [rbind] in H. rewrite setitem_vix in H. cbn [rbind] in H.
  destruct (get_close_price sp500_data) as [B|e]; [|discriminate].
  eauto.
Qed.




Section Alignment.

Variables vix_data sp500_data df : DataFrame.
Variables A B : Series.
Hypothesis Hcombined : combined vix_data sp500_data = Ok df.
Hypothesis HA : get_close_price vix_data = Ok A.
Hypothesis HB : get_close_price sp500_data = Ok B.






End Alignment.

Lemma indicators_rows (sqrtQ : Q -> Q) (ma_window bb_period : nat)
    (bb_std : float64) (rows : list Row) :
  indicators sqrtQ ma_window bb_period bb_std (frame_of_rows rows)
  = Ok (table sqrtQ ma_window bb_period bb_std rows).
Proof. reflexivity. Qed.

Section GetData.

Variable sqrtQ : Q -> Q.
Variable yf_download : string -> Date -> Date -> result DataFrame.
Variables (ma_window bb_period : nat) (bb_std : float64).
Variables start_date end_date : Date.

Lemma get_data_with_run (page : list Element) :
  get_data_with sqrtQ yf_download ma_window bb_period bb_std start_date end_date page =
  match yf_download "^VIX" start_date end_date with
  | Raise e => (Ok None, download_failed e page)
  | Ok vix_data =>
      match yf_download "^GSPC" start_date end_date with
      | Raise e => (Ok None, download_failed e page)
      | Ok sp500_data =>
          if df_empty vix_data || df_empty sp500_data
          then (Ok None,
                page ++ [StError "Impossibile scaricare i dati. Controlla la connessione internet."])
          else
            match combined vix_data sp500_data with
            | Raise e => (Ok None, download_failed e page)
            | Ok combined_data =>
                if df_empty combined_data
                then (Ok None,
                      page ++ [StError "Nessun dato valido trovato per il periodo selezionato."])
                else
                  match indicators sqrtQ ma_window bb_period bb_std combined_data with
                  | Raise e => (Ok None, download_failed e page)
                  | Ok df => (Ok (Some df), page)
                  end
            end
      end
  end.
Proof.
  unfold get_data_with, try_except, bind, lift, ret, st_error, st_info, show,
    download_failed.
  destruct (yf_download "^VIX" start_date end_date) as [vix_data|e];
    [|now rewrite <- app_assoc].
  destruct (yf_download "^GSPC" start_date end_date) as [sp500_data|e];
    [|now rewrite <- app_assoc].
  destruct (df_empty vix_data || df_empty sp500_data); [reflexivity|].
  destruct (combined vix_data sp500_data) as [combined_data|e];
    [|now rewrite <- app_assoc].
  destruct (df_empty combined_data); [reflexivity|].
  destruct (indicators sqrtQ ma_window bb_period bb_std combined_data) as [df|e];
    [reflexivity|now rewrite <- app_assoc].
Qed.

(** A table is returned only from two non-empty downloads whose complete
    aligned rows are not empty, and nothing is written to the page. *)
Lemma get_data_with_Some (page page' : list Element) (df : DataFrame) :
  get_data_with sqrtQ yf_download ma_window bb_period bb_std start_date end_date page
  = (Ok (Some df), page') ->
  page' = page /\
  exists vix_data sp500_data A B rows,
    yf_download "^VIX" start_date end_date = Ok vix_data
    /\ yf_download "^GSPC" start_date end_date = Ok sp500_data
    /\ get_close_price vix_data = Ok A
    /\ get_close_price sp500_data = Ok B
    /\ combined vix_data sp500_data = Ok (frame_of_rows rows)
    /\ rows <> []
    /\ Forall (fun r => complete r = true) rows
    /\ (forall r, In r rows -> In (fst r, row_vix r) A /\ In (fst r, row_sp500 r) B)
    /\ df = table sqrtQ ma_window bb_period bb_std rows.
Proof.
  rewrite get_data_with_run.
  destruct (yf_download "^VIX" start_date end_date) as [vix_data|e]; [|discriminate].
  destruct (yf_download "^GSPC" start_date end_date) as [sp500_data|e]; [|discriminate].
  destruct (df_empty vix_data || df_empty sp500_data); [discriminate|].
  destruct (combined vix_data sp500_data) as [cd|e] eqn:Hc; [|discriminate].
  destruct (combined_inv _ _ _ Hc) as (A & B & HA & HB).
  destruct (combined_rows _ _ _ _ _ Hc HA HB) as (rows & -> & Hrows & _).
  destruct (df_empty (frame_of_rows (filter complete rows))) eqn:He; [discriminate|].
  rewrite indicators_rows. intros [= <- <-]. split; [reflexivity|].
  exists vix_data, sp500_data, A, B, (filter complete rows).
  repeat split; auto.
  - intros Hnil. rewrite Hnil in He. discriminate.
  - apply Forall_forall. intros r Hr. now apply filter_In in Hr.
  - apply filter_In in H as [H1 H2]. now apply Hrows.
  - apply filter_In in H as [H1 H2]. now apply Hrows.
Qed.

End GetData.

Lemma sample_frame_not_empty (n : nat) (close : nat -> Q) :
  (0 < n)%nat -> df_empty (sample_frame n close) = false.
Proof. destruct n; [lia|reflexivity]. Qed.

Lemma sample_rows_not_empty (vix_close : nat -> Q) (n : nat) :
  (0 < n)%nat -> df_empty (frame_of_rows (sample_rows vix_close n)) = false.
Proof. destruct n; [lia|reflexivity]. Qed.

(** The run of [get_data] on a sample download. *)
Lemma get_data_with_sample (sqrtQ : Q -> Q) (w p : nat) (K : float64)
    (vix_close : nat -> Q) (n : nat)
    (start_date end_date : Date) (page : list Element) :
  (0 < n)%nat ->
  combined (sample_frame n vix_close) (sample_frame n (fun _ => 4000))
  = Ok (frame_of_rows (sample_rows vix_close n)) ->
  get_data_with sqrtQ (sample_download vix_close n) w p K start_date end_date page
  = (Ok (Some (table sqrtQ w p K (sample_rows vix_close n))), page).
Proof.
  intros Hn Hc. rewrite get_data_with_run.
  change (sample_download vix_close n "^VIX" start_date end_date)
    with (Ok (sample_frame n vix_close)).
  change (sample_download vix_close n "^GSPC" start_date end_date)
    with (Ok (sample_frame n (fun _ => 4000))).
  cbv iota beta.
  rewrite !sample_frame_not_empty by assumption. cbn [orb].
  rewrite Hc, sample_rows_not_empty by assumption.
  now rewrite indicators_rows.
Qed.

Lemma get_data_sample (sqrtQ : Q -> Q) (vix_close : nat -> Q) (n : nat)
    (start_date end_date : Date) (page : list Element) :
  (0 < n)%nat ->
  combined (sample_frame n vix_close) (sample_frame n (fun _ => 4000))
  = Ok (frame_of_rows (sample_rows vix_close n)) ->
  get_data sqrtQ (sample_download vix_close n) start_date end_date page
  = (Ok (Some (sample_table_with sqrtQ vix_close n)), page).
Proof. intros Hn Hc. unfold get_data. now apply get_data_with_sample. Qed.

(** A download whose alignment is known. *)
Lemma get_data_with_rows (sqrtQ : Q -> Q)
    (yf_download : string -> Date -> Date -> result DataFrame)
    (w p : nat) (K : float64) (start_date end_date : Date) (page : list Element)
    (vix_data sp500_data : DataFrame) (rows : list Row) :
  yf_download "^VIX"%string start_date end_date = Ok vix_data ->
  yf_download "^GSPC"%string start_date end_date = Ok sp500_data ->
  df_empty vix_data = false -> df_empty sp500_data = false ->
  combined vix_data sp500_data = Ok (frame_of_rows rows) ->
  rows <> [] ->
  get_data_with sqrtQ yf_download w p K start_date end_date page
  = (Ok (Some (table sqrtQ w p K rows)), page).
Proof.
  intros Hv Hs E1 E2 Hc Hne.
  rewrite get_data_with_run, Hv, Hs, E1, E2. cbn [orb]. rewrite Hc.
  replace (df_empty (frame_of_rows rows)) with false
    by (destruct rows; [contradiction|reflexivity]).
  now rewrite indicators_rows.
Qed.

Lemma observations_prep_length (win : list float64) :
  (length (observations (prep_values win)) <= length win)%nat.
Proof.
  rewrite <- (prep_values_length win). apply observations_length.
Qed.

(** A cell that is not finite is no observation of its window. *)
Lemma observations_prep_short (win : list float64) :
  forallb isfinite win = false ->
  (length (observations (prep_values win)) < length win)%nat.
Proof.
  induction win as [|x win IH]; [discriminate|].
  cbn [forallb]. intros H.
  pose proof (observations_prep_length win) as Hl.
  unfold observations, prep_values in *. cbn [map filter length].
  destruct x as [q| | |]; cbn [isfinite isinf notna isnan negb andb length] in *;
    try lia.
  specialize (IH H). lia.
Qed.

Lemma roll_mean_not_finite (w : nat) (win : list float64) :
  (length win <= w)%nat -> forallb isfinite win = false ->
  roll_mean w (prep_values win) = NaN.
Proof.
  intros Hw Hf. unfold roll_mean.
  pose proof (observations_prep_short win Hf) as Hl.
  destruct (Nat.leb_spec w (length (observations (prep_values win)))) as [?|_];
    [lia|reflexivity].
Qed.

(** ** The cells of a trailing window *)

Lemma window_at_nth_error (A : Type) (w i k : nat) (l : list A) :
  (i < length l)%nat -> (w <= i + 1)%nat -> (k < w)%nat ->
  nth_error (window_at w i l) k = nth_error l (i + 1 - w + k).
Proof.
  intros Hi Hw Hk. unfold window_at.
  rewrite nth_error_skipn, nth_error_firstn.
  destruct (Nat.ltb_spec (i + 1 - w + k) (i + 1)) as [_|H]; [reflexivity|lia].
Qed.

(** The window that ends at row [i] holds the [w] cells
    [l[i+1-w .. i]]. *)
Lemma window_at_cells (w i : nat) (l : list float64) (qs : list Q) :
  (i < length l)%nat -> (w <= i + 1)%nat -> length qs = w ->
  (forall k, (k < w)%nat ->
     nth_error l (i + 1 - w + k) = Some (Finite (nth k qs 0))) ->
  window_at w i l = map Finite qs.
Proof.
  intros Hi Hw Hl Hc. apply nth_error_ext. intros k.
  destruct (Nat.lt_ge_cases k w) as [Hk|Hk].
  - rewrite window_at_nth_error, Hc by assumption.
    rewrite nth_error_map, (nth_error_nth' qs 0) by lia. reflexivity.
  - transitivity (@None float64).
    + apply nth_error_None. rewrite window_at_length by assumption. lia.
    + symmetry. apply nth_error_None. rewrite length_map. lia.
Qed.

Lemma window_at_not_finite (w i k : nat) (l : list float64) (x : float64) :
  (i < length l)%nat -> (w <= i + 1)%nat -> (k < w)%nat ->
  nth_error l (i + 1 - w + k) = Some x -> isfinite x = false ->
  forallb isfinite (window_at w i l) = false.
Proof.
  intros Hi Hw Hk Hx Hf.
  destruct (forallb isfinite (window_at w i l)) eqn:E; [|reflexivity].
  rewrite forallb_forall in E.
  rewrite <- (window_at_nth_error _ w i k l Hi Hw Hk) in Hx.
  apply nth_error_In in Hx. apply E in Hx. congruence.
Qed.

Lemma finite_cells (l : list float64) :
  forallb isfinite l = true -> exists qs, l = map Finite qs.
Proof.
  induction l as [|x l IH]; [now exists []|].
  cbn [forallb]. intros H. apply andb_true_iff in H as [Hx Hl].
  destruct (IH Hl) as (qs & ->). destruct x as [q| | |]; try discriminate.
  now exists (q :: qs).
Qed.

(** C3, as the code has it.  In the table [get_data] returns, the cell
    of [Ratio_MA_20] at the 0-based row [i] is NaN (no value) for every
    [i < 19]; for [i >= 19] it is the arithmetic mean of the 20 ratios
    [ratio[i-19 .. i]] when these are finite, and NaN when one of them is
    NaN or infinite. *)
Theorem moving_average_window (sqrtQ : Q -> Q)
    (yf_download : string -> Date -> Date -> result DataFrame)
    (start_date end_date : Date) (page page' : list Element) (df : DataFrame) :
  get_data sqrtQ yf_download start_date end_date page = (Ok (Some df), page') ->
  exists ratio ma,
    getitem df "Ratio" = Ok ratio /\ getitem df "Ratio_MA_20" = Ok ma /\
    length ma = length ratio /\
    forall i, (i < length ratio)%nat ->
      ((i < 19)%nat -> nth_error ma i = Some NaN) /\
      ((19 <= i)%nat ->
         (forall qs, length qs = 20%nat ->
            (forall k, (k < 20)%nat ->
               nth_error ratio (i - 19 + k) = Some (Finite (nth k qs 0))) ->
            nth_error ma i = Some (Finite (Qsum qs / 20))) /\
         (forall k x, (k < 20)%nat ->
            nth_error ratio (i - 19 + k) = Some x -> isfinite x = false ->
            nth_error ma i = Some NaN)).
Proof.
  intros H. apply get_data_with_Some in H
    as (_ & _ & _ & _ & _ & rows & _ & _ & _ & _ & _ & _ & _ & _ & ->).
  exists (ratio_of rows), (rolling_mean 20 (ratio_of rows)).
  split; [reflexivity|]. split; [reflexivity|].
  split; [apply rolling_mean_length|].
  intros i Hi. split; [|split].
  - intros Hlt. apply rolling_mean_undefined; [assumption|lia].
  - intros qs Hl Hcells.
    apply (rolling_mean_defined 20 _ i qs); [lia|assumption|lia|].
    apply window_at_cells; [assumption|lia|assumption|].
    intros k Hk. replace (i + 1 - 20 + k)%nat with (i - 19 + k)%nat by lia.
    now apply Hcells.
  - intros k x Hk Hx Hf. unfold rolling_mean.
    rewrite rolling_apply_nth by assumption.
    rewrite roll_mean_not_finite; [reflexivity| |].
    + rewrite window_at_length by assumption. lia.
    + apply (window_at_not_finite 20 i k _ x); try assumption; try lia.
      now replace (i + 1 - 20 + k)%nat with (i - 19 + k)%nat by lia.
Qed.

Lemma moving_average_window_witness :
  exists ratio ma,
    getitem (sample_table rising 21) "Ratio" = Ok ratio /\
    getitem (sample_table rising 21) "Ratio_MA_20" = Ok ma /\
    length ma = length ratio /\
    forall i, (i < length ratio)%nat ->
      ((i < 19)%nat -> nth_error ma i = Some NaN) /\
      ((19 <= i)%nat ->
         (forall qs, length qs = 20%nat ->
            (forall k, (k < 20)%nat ->
               nth_error ratio (i - 19 + k) = Some (Finite (nth k qs 0))) ->
            nth_error ma i = Some (Finite (Qsum qs / 20))) /\
         (forall k x, (k < 20)%nat ->
            nth_error ratio (i - 19 + k) = Some x -> isfinite x = false ->
            nth_error ma i = Some NaN)).
Proof.
  apply (moving_average_window sqrt_floor (sample_download rising 21) 0%Z 0%Z [] []).
  exact (get_data_sample sqrt_floor rising 21 0%Z 0%Z [] (Nat.lt_0_succ 20) eq_refl).
Defined.

Lemma get_data_zero_first (sqrtQ : Q -> Q) :
  get_data sqrtQ (zero_first_download 20) 0%Z 0%Z []
  = (Ok (Some (table sqrtQ 20 20 (Finite 2) (zero_first_rows 20))), []).
Proof.
  unfold get_data.
  apply (get_data_with_rows sqrtQ (zero_first_download 20) 20 20 (Finite 2) 0%Z 0%Z []
           (sample_frame 20 flat) (sample_frame 20 zero_first));
    try reflexivity.
  discriminate.
Qed.

(** C3, as the specification has it, fails on a window that holds an
    infinite ratio.  On 20 trading days with the S&P500 at 0 on the
    first, the first ratio is +inf and stays in the table; at row 19 the
    window [ratio[0 .. 19]] is the whole column, its arithmetic mean is
    +inf, and the moving average is NaN. *)
Lemma moving_average_not_mean :
  exists df ratio ma,
    get_data sqrt_floor (zero_first_download 20) 0%Z 0%Z [] = (Ok (Some df), [])
    /\ getitem df "Ratio" = Ok ratio /\ getitem df "Ratio_MA_20" = Ok ma
    /\ length ratio = 20%nat
    /\ nth_error ratio 0 = Some PosInf
    /\ arithmetic_mean ratio = PosInf
    /\ nth_error ma 19 = Some NaN.
Proof.
  exists (table sqrt_floor 20 20 (Finite 2) (zero_first_rows 20)),
    (ratio_of (zero_first_rows 20)), (rolling_mean 20 (ratio_of (zero_first_rows 20))).
  split; [apply get_data_zero_first|].
  repeat split.
Qed.

(** ** Rolling standard deviation and the bands *)

Lemma map2_nth_error (A B C : Type) (f : A -> B -> C) (a : list A) (b : list B)
    (i : nat) (z : C) :
  nth_error (map2 f a b) i = Some z ->
  exists x y, nth_error a i = Some x /\ nth_error b i = Some y /\ z = f x y.
Proof.
  revert b i. induction a as [|x a IH]; intros [|y b] [|i]; simpl; try discriminate.
  - intros [= <-]. eauto.
  - apply IH.
Qed.

Lemma map2_length (A B C : Type) (f : A -> B -> C) (a : list A) (b : list B) :
  length (map2 f a b) = Nat.min (length a) (length b).
Proof.
  revert b. induction a as [|x a IH]; intros [|y b]; simpl; auto.
Qed.

Lemma Qsqdev_nonneg (qs : list Q) : 0 <= Qsqdev qs.
Proof.
  unfold Qsqdev. apply Qsum_nonneg. apply Forall_forall.
  intros x Hx. apply in_map_iff in Hx as (q & <- & _).
  generalize (q - Qmean qs). intros d.
  destruct (Qlt_le_dec d 0).
  - setoid_replace (d * d) with ((- d) * (- d)) by ring.
    apply Qmult_le_0_compat; lra.
  - apply Qmult_le_0_compat; lra.
Qed.

Lemma fdiv_Finite_nat (a : Q) (n : nat) :
  (0 < n)%nat -> fdiv (Finite a) (of_nat n) = Finite (a / inject_Z (Z.of_nat n)).
Proof.
  intros Hn. unfold of_nat, fdiv.
  rewrite Qeq_bool_false; [reflexivity|].
  pose proof (inject_nat_pos n Hn). lra.
Qed.

Lemma ssqdm_Finite (qs : list Q) :
  qs <> [] -> ssqdm (map Finite qs) = Finite (Qsqdev qs).
Proof.
  intros Hne. unfold ssqdm, Qsqdev.
  rewrite fsum_Finite, length_map.
  rewrite fdiv_Finite_nat by (destruct qs; [contradiction|simpl; lia]).
  rewrite map_map. cbn [fsub fneg fadd fmul].
  rewrite <- (map_map (fun q => (q + - (Qsum qs / inject_Z (Z.of_nat (length qs))))
                               * (q + - (Qsum qs / inject_Z (Z.of_nat (length qs))))) Finite).
  rewrite fsum_Finite. reflexivity.
Qed.

Lemma roll_var_Finite (w : nat) (qs : list Q) :
  (2 <= w)%nat -> length qs = w ->
  roll_var w 1 (map Finite qs)
  = Finite (Qsqdev qs / inject_Z (Z.of_nat (w - 1))).
Proof.
  intros Hw Hl. unfold roll_var.
  rewrite observations_Finite, length_map, Hl, Nat.leb_refl.
  destruct (Nat.ltb_spec 1 w) as [_|?]; [|lia].
  destruct (Nat.eqb_spec w 1) as [?|_]; [lia|]. cbn [andb].
  rewrite ssqdm_Finite by (destruct qs; [simpl in Hl; lia|discriminate]).
  now rewrite fdiv_Finite_nat by lia.
Qed.

Lemma Qmean_repeat (c : Q) (n : nat) : (0 < n)%nat -> Qmean (repeat c n) == c.
Proof.
  intros Hn. unfold Qmean. rewrite Qsum_repeat, repeat_length.
  pose proof (inject_nat_pos n Hn). field. lra.
Qed.

Lemma Qsqdev_repeat (c : Q) (n : nat) : (0 < n)%nat -> Qsqdev (repeat c n) == 0.
Proof.
  intros Hn. unfold Qsqdev. apply Qsum_zero. apply Forall_forall.
  intros x Hx. apply in_map_iff in Hx as (q & <- & Hq).
  apply repeat_spec in Hq. subst q.
  rewrite (Qmean_repeat c n Hn). ring.
Qed.

Lemma roll_mean_defined_window (w : nat) (win : list float64) :
  (length win <= w)%nat -> roll_mean w (prep_values win) <> NaN ->
  length win = w /\ exists qs, win = map Finite qs.
Proof.
  intros Hl Hm.
  destruct (Nat.lt_ge_cases (length win) w) as [Hlt|Hge].
  - exfalso. apply Hm. apply roll_mean_short. now rewrite prep_values_length.
  - split; [lia|].
    destruct (forallb isfinite win) eqn:E; [now apply finite_cells|].
    exfalso. apply Hm. now apply roll_mean_not_finite.
Qed.

Lemma zsqrt_Finite (sqrtQ : Q -> Q) (v : Q) :
  0 <= v -> zsqrt sqrtQ (Finite v) = Finite (sqrtQ v).
Proof.
  intros Hv. unfold zsqrt, flt, fsqrt. now rewrite (Qle_bool_true 0 v Hv).
Qed.

Lemma sample_variance_repeat (c : Q) (n : nat) :
  (2 <= n)%nat -> sample_variance (repeat c n) == 0.
Proof.
  intros Hn. unfold sample_variance. rewrite Qsqdev_repeat by lia.
  rewrite repeat_length.
  assert (0 < inject_Z (Z.of_nat (n - 1))) by (apply inject_nat_pos; lia).
  field. lra.
Qed.

Section Bollinger.

Variable sqrtQ : Q -> Q.
Hypothesis sqrtQ_nonneg : forall q, 0 <= sqrtQ q.
Hypothesis sqrtQ_zero : forall q, q == 0 -> sqrtQ q == 0.

(** The three bands on a window of finite ratios. *)
Lemma bands_finite_window (K : Q) (i : nat) (ratio : list float64) (qs : list Q) :
  (i < length ratio)%nat -> (19 <= i)%nat -> length qs = 20%nat ->
  (forall k, (k < 20)%nat ->
     nth_error ratio (i - 19 + k) = Some (Finite (nth k qs 0))) ->
  roll_mean 20 (prep_values (window_at 20 i ratio)) = Finite (Qmean qs)
  /\ zsqrt sqrtQ (roll_var 20 1 (prep_values (window_at 20 i ratio)))
     = Finite (sqrtQ (sample_variance qs)).
Proof.
  intros Hi H19 Hl Hc.
  assert (Hw : window_at 20 i ratio = map Finite qs).
  { apply window_at_cells; [assumption|lia|assumption|].
    intros k Hk. replace (i + 1 - 20 + k)%nat with (i - 19 + k)%nat by lia.
    now apply Hc. }
  rewrite Hw, prep_values_Finite.
  rewrite roll_mean_Finite, roll_var_Finite by (assumption || lia).
  unfold Qmean, sample_variance. rewrite Hl. split; [reflexivity|].
  apply zsqrt_Finite.
  pose proof (Qsqdev_nonneg qs) as Hv.
  assert (0 < inject_Z (Z.of_nat (20 - 1))) by (apply inject_nat_pos; lia).
  apply Qle_shift_div_l; lra.
Qed.

(** C4.  For every non-negative band multiplier [K], at every row of the
    table [BB_Upper = BB_Middle + K * std] and
    [BB_Lower = BB_Middle - K * std], where [std] is the cell of the
    rolling standard deviation.  The bands are defined (not NaN) exactly
    at the rows [i >= 19] whose 20 ratios [ratio[i-19 .. i]] are finite;
    there the middle band is the mean of these ratios, [std] is their
    sample standard deviation (the root of the squared deviations from
    the mean over 19), and [BB_Lower <= BB_Middle <= BB_Upper]; on 20
    equal ratios [c] the three bands are [c]. *)
Theorem bollinger_bands (K : Q)
    (yf_download : string -> Date -> Date -> result DataFrame)
    (start_date end_date : Date) (page page' : list Element) (df : DataFrame) :
  0 <= K ->
  get_data_with sqrtQ yf_download 20 20 (Finite K) start_date end_date page
  = (Ok (Some df), page') ->
  exists ratio middle upper lower,
    getitem df "Ratio" = Ok ratio /\ getitem df "BB_Middle" = Ok middle /\
    getitem df "BB_Upper" = Ok upper /\ getitem df "BB_Lower" = Ok lower /\
    forall i m u l,
      nth_error middle i = Some m -> nth_error upper i = Some u ->
      nth_error lower i = Some l ->
      exists sd,
        nth_error (rolling_std sqrtQ 20 ratio) i = Some sd /\
        u = fadd m (fmul sd (Finite K)) /\
        l = fsub m (fmul sd (Finite K)) /\
        (isnan u = false \/ isnan l = false ->
           (19 <= i)%nat /\
           exists qs, length qs = 20%nat /\
             forall k, (k < 20)%nat ->
               nth_error ratio (i - 19 + k) = Some (Finite (nth k qs 0))) /\
        (forall qs, (19 <= i)%nat -> length qs = 20%nat ->
           (forall k, (k < 20)%nat ->
              nth_error ratio (i - 19 + k) = Some (Finite (nth k qs 0))) ->
           m = Finite (Qmean qs) /\
           sd = Finite (sqrtQ (sample_variance qs)) /\
           u = Finite (Qmean qs + sqrtQ (sample_variance qs) * K) /\
           l = Finite (Qmean qs - sqrtQ (sample_variance qs) * K) /\
           fle l m = true /\ fle m u = true) /\
        (forall c, (19 <= i)%nat ->
           (forall k, (k < 20)%nat -> nth_error ratio (i - 19 + k) = Some (Finite c)) ->
           u =f= Finite c /\ m =f= Finite c /\ l =f= Finite c).
Proof.
  intros HK H.
  apply get_data_with_Some in H
    as (_ & _ & _ & _ & _ & rows & _ & _ & _ & _ & _ & _ & _ & _ & ->).
  set (ratio := ratio_of rows).
  exists ratio, (rolling_mean 20 ratio).
  exists (map2 fadd (rolling_mean 20 ratio)
            (map (fun x => fmul x (Finite K)) (rolling_std sqrtQ 20 ratio))).
  exists (map2 fsub (rolling_mean 20 ratio)
            (map (fun x => fmul x (Finite K)) (rolling_std sqrtQ 20 ratio))).
  do 4 (split; [reflexivity|]).
  intros i m u l Hm Hu Hl.
  assert (Hi : (i < length ratio)%nat).
  { rewrite <- (rolling_mean_length 20). apply nth_error_Some. congruence. }
  apply map2_nth_error in Hu as (m1 & b1 & Hm1 & Hb1 & ->).
  apply map2_nth_error in Hl as (m2 & b2 & Hm2 & Hb2 & ->).
  rewrite Hm in Hm1, Hm2. injection Hm1 as <-. injection Hm2 as <-.
  rewrite nth_error_map in Hb1, Hb2.
  destruct (nth_error (rolling_std sqrtQ 20 ratio) i) as [sd|] eqn:Hsd;
    [|discriminate].
  cbn [option_map] in Hb1, Hb2. injection Hb1 as <-. injection Hb2 as <-.
  exists sd. do 3 (split; [reflexivity|]).
  unfold rolling_mean in Hm. rewrite rolling_apply_nth in Hm by assumption.
  unfold rolling_std in Hsd. rewrite nth_error_map, rolling_apply_nth in Hsd by assumption.
  cbn [option_map] in Hsd. injection Hm as <-. injection Hsd as <-.
  assert (Hfin : forall qs, (19 <= i)%nat -> length qs = 20%nat ->
            (forall k, (k < 20)%nat ->
               nth_error ratio (i - 19 + k) = Some (Finite (nth k qs 0))) ->
            roll_mean 20 (prep_values (window_at 20 i ratio)) = Finite (Qmean qs)
            /\ zsqrt sqrtQ (roll_var 20 1 (prep_values (window_at 20 i ratio)))
               = Finite (sqrtQ (sample_variance qs))).
  { intros qs H19 Hlq Hc. now apply (bands_finite_window K). }
  split; [|split].
  - intros Hdef.
    assert (Hmn : roll_mean 20 (prep_values (window_at 20 i ratio)) <> NaN).
    { intros E. rewrite E in Hdef. destruct Hdef as [Hd|Hd]; discriminate Hd. }
    pose proof (window_at_length _ 20 i ratio Hi) as Hwl.
    destruct (roll_mean_defined_window 20 (window_at 20 i ratio)) as (Hl20 & qs & Hqs);
      [lia|assumption|].
    assert (H19 : (19 <= i)%nat) by lia.
    split; [assumption|].
    exists qs. split.
    + rewrite <- (length_map Finite), <- Hqs. assumption.
    + intros k Hk. replace (i - 19 + k)%nat with (i + 1 - 20 + k)%nat by lia.
      rewrite <- window_at_nth_error by (assumption || lia).
      rewrite Hqs, nth_error_map, (nth_error_nth' qs 0); [reflexivity|].
      rewrite <- (length_map Finite), <- Hqs. lia.
  - intros qs H19 Hlq Hc.
    destruct (Hfin qs H19 Hlq Hc) as (-> & ->).
    cbn [fmul fadd fsub fneg fle].
    do 4 (split; [reflexivity|]).
    pose proof (sqrtQ_nonneg (sample_variance qs)) as Hs.
    pose proof (Qmult_le_0_compat _ K Hs HK).
    split; apply Qle_bool_true; lra.
  - intros c H19 Hc.
    destruct (Hfin (repeat c 20) H19 (repeat_length c 20)) as (-> & ->).
    { intros k Hk. rewrite nth_repeat_lt by assumption. now apply Hc. }
    cbn [fmul fadd fsub fneg feq].
    rewrite (Qmean_repeat c 20) by lia.
    rewrite (sqrtQ_zero _ (sample_variance_repeat c 20 ltac:(lia))).
    repeat split; ring.
Qed.

End Bollinger.

(** ** The square root of the examples *)

Lemma sqrt_floor_nonneg (q : Q) : 0 <= sqrt_floor q.
Proof.
  unfold sqrt_floor, Qle. cbn [Qnum Qden]. 
  pose proof (Z.sqrt_nonneg (Qnum (Qred q) * Z.pos (Qden (Qred q)) * 4 ^ 30)). lia.
Qed.

Lemma sqrt_floor_proper (q q' : Q) : q == q' -> sqrt_floor q == sqrt_floor q'.
Proof.
  intros H. unfold sqrt_floor. rewrite (Qred_complete q q' H). reflexivity.
Qed.

Lemma sqrt_floor_zero (q : Q) : q == 0 -> sqrt_floor q == 0.
Proof.
  intros H. rewrite (sqrt_floor_proper q 0 H). reflexivity.
Qed.

Lemma bollinger_bands_witness :
  exists ratio middle upper lower,
    getitem (sample_table rising 21) "Ratio" = Ok ratio /\
    getitem (sample_table rising 21) "BB_Middle" = Ok middle /\
    getitem (sample_table rising 21) "BB_Upper" = Ok upper /\
    getitem (sample_table rising 21) "BB_Lower" = Ok lower /\
    forall i m u l,
      nth_error middle i = Some m -> nth_error upper i = Some u ->
      nth_error lower i = Some l ->
      exists sd,
        nth_error (rolling_std sqrt_floor 20 ratio) i = Some sd /\
        u = fadd m (fmul sd (Finite 2)) /\
        l = fsub m (fmul sd (Finite 2)) /\
        (isnan u = false \/ isnan l = false ->
           (19 <= i)%nat /\
           exists qs, length qs = 20%nat /\
             forall k, (k < 20)%nat ->
               nth_error ratio (i - 19 + k) = Some (Finite (nth k qs 0))) /\
        (forall qs, (19 <= i)%nat -> length qs = 20%nat ->
           (forall k, (k < 20)%nat ->
              nth_error ratio (i - 19 + k) = Some (Finite (nth k qs 0))) ->
           m = Finite (Qmean qs) /\
           sd = Finite (sqrt_floor (sample_variance qs)) /\
           u = Finite (Qmean qs + sqrt_floor (sample_variance qs) * 2) /\
           l = Finite (Qmean qs - sqrt_floor (sample_variance qs) * 2) /\
           fle l m = true /\ fle m u = true) /\
        (forall c, (19 <= i)%nat ->
           (forall k, (k < 20)%nat -> nth_error ratio (i - 19 + k) = Some (Finite c)) ->
           u =f= Finite c /\ m =f= Finite c /\ l =f= Finite c).
Proof.
  apply (bollinger_bands sqrt_floor sqrt_floor_nonneg sqrt_floor_zero 2
           (sample_download rising 21) 0%Z 0%Z [] []).
  - lra.
  - exact (get_data_with_sample sqrt_floor 20 20 (Finite 2) rising 21 0%Z 0%Z []
             (Nat.lt_0_succ 20) eq_refl).
Defined.

(** ** Percentile rank *)

Lemma Qsum_indicator (bs : list bool) :
  Qsum (map indicator bs) == inject_Z (Z.of_nat (length (filter (fun b => b) bs))).
Proof.
  induction bs as [|b bs IH]; [reflexivity|].
  cbn [map]. rewrite Qsum_cons, IH. destruct b; cbn [filter indicator length].
  - rewrite Nat2Z.inj_succ. unfold Z.succ. rewrite inject_Z_plus. ring.
  - ring.
Qed.

Lemma filter_map_bool (A : Type) (p : A -> bool) (l : list A) :
  length (filter (fun b : bool => b) (map p l)) = length (filter p l).
Proof.
  induction l as [|x l IH]; simpl; [reflexivity|].
  destruct (p x); simpl; auto.
Qed.

Lemma bool_mean_count (bs : list bool) :
  bool_mean bs
  =f= fdiv (of_nat (length (filter (fun b => b) bs))) (of_nat (length bs)).
Proof.
  unfold bool_mean.
  replace (map (fun b : bool => if b then Finite 1 else Finite 0) bs)
    with (map Finite (map indicator bs))
    by (rewrite map_map; apply map_ext; now intros []).
  rewrite fsum_Finite.
  destruct bs as [|b bs].
  - reflexivity.
  - rewrite !fdiv_Finite_nat by (simpl; lia).
    change (Qsum (map indicator (b :: bs)) / inject_Z (Z.of_nat (length (b :: bs)))
            == inject_Z (Z.of_nat (length (filter (fun b => b) (b :: bs))))
               / inject_Z (Z.of_nat (length (b :: bs)))).
    now rewrite Qsum_indicator.
Qed.

Lemma fmul_feq (x y z : float64) : x =f= y -> fmul x z =f= fmul y z.
Proof.
  assert (Hs : forall pos a b, a == b -> scale_inf pos a =f= scale_inf pos b).
  { intros pos a b E. unfold scale_inf.
    destruct (Qeq_bool a 0) eqn:Ea.
    - apply Qeq_bool_iff in Ea. rewrite Qeq_bool_true by (rewrite <- E; exact Ea).
      reflexivity.
    - rewrite Qeq_bool_false.
      + destruct (Qle_bool 0 a) eqn:La.
        * apply Qle_bool_iff in La. rewrite Qle_bool_true by (rewrite <- E; exact La).
          destruct pos; reflexivity.
        * rewrite Qle_bool_false; [destruct pos; reflexivity|].
          destruct (Qlt_le_dec b 0) as [|Hb]; [assumption|].
          rewrite <- E in Hb. apply Qle_bool_iff in Hb. congruence.
      + intros Hb. rewrite <- E in Hb. apply Qeq_bool_iff in Hb. congruence. }
  destruct x, y, z; simpl; try tauto; intros E; auto; try apply feq_refl.
  now rewrite E.
Qed.

Lemma percentile_of_rank (values : list float64) (v : float64) :
  percentile_of values v =f= rank_spec values v.
Proof.
  unfold percentile_of, rank_spec, count_le. apply fmul_feq.
  eapply feq_trans; [apply bool_mean_count|].
  rewrite length_map, filter_map_bool. apply feq_refl.
Qed.

(** [<=] is transitive across a strict step: a value at or below [y] is
    at or below any [x > y]. *)
Lemma fle_flt_trans (u y x : float64) :
  fle u y = true -> flt y x = true -> fle u x = true.
Proof.
  destruct u as [a| | |], y as [b| | |], x as [c| | |]; simpl;
    try discriminate; try reflexivity.
  intros H1 H2. apply Qle_bool_iff in H1. apply negb_true_iff in H2.
  apply Qle_bool_true.
  destruct (Qlt_le_dec b c) as [Hlt|Hle]; [lra|].
  apply Qle_bool_iff in Hle. congruence.
Qed.

Lemma count_le_mono (values : list float64) (x y : float64) :
  flt y x = true -> (count_le values y <= count_le values x)%nat.
Proof.
  intros H. unfold count_le.
  induction values as [|u values IH]; simpl; [lia|].
  destruct (fle u y) eqn:E.
  - rewrite (fle_flt_trans u y x E H). simpl. lia.
  - destruct (fle u x); simpl; lia.
Qed.

Lemma fle_feq (a b c d : float64) : a =f= b -> c =f= d -> fle b d = true -> fle a c = true.
Proof.
  destruct a, b, c, d; simpl; try tauto; try discriminate; auto.
  intros E1 E2 H. apply Qle_bool_iff in H. apply Qle_bool_true. lra.
Qed.

Lemma fdiv_of_nat (c n : nat) :
  (0 < n)%nat ->
  fdiv (of_nat c) (of_nat n)
  = Finite (inject_Z (Z.of_nat c) / inject_Z (Z.of_nat n)).
Proof. intros Hn. unfold of_nat at 1. now apply fdiv_Finite_nat. Qed.

(** C7.  The percentile rank of [x] within a series,
    [(values <= x).mean() * 100], is the count of values at or below [x]
    over the total count, times 100; and within a non-empty series it is
    monotonic: if [x > y] then the rank of [x] is at least that of [y]. *)
Theorem percentile_rank_monotonic (values : list float64) (x y : float64) :
  percentile_of values x =f= rank_spec values x
  /\ (values <> [] -> fgt x y = true ->
      fle (percentile_of values y) (percentile_of values x) = true).
Proof.
  split; [apply percentile_of_rank|].
  intros Hne Hgt. unfold fgt in Hgt.
  apply (fle_feq _ _ _ _ (percentile_of_rank values y) (percentile_of_rank values x)).
  unfold rank_spec.
  assert (Hn : (0 < length values)%nat) by (destruct values; [contradiction|simpl; lia]).
  rewrite !fdiv_of_nat by assumption. cbn [fmul fle].
  apply Qle_bool_true.
  pose proof (count_le_mono values x y Hgt) as Hc.
  pose proof (inject_nat_pos _ Hn) as Hp.
  assert (Hq : inject_Z (Z.of_nat (count_le values y))
               <= inject_Z (Z.of_nat (count_le values x))).
  { rewrite <- Zle_Qle. lia. }
  apply Qmult_le_compat_r; [|lra].
  apply Qmult_le_compat_r; [assumption|].
  apply Qlt_le_weak, Qinv_lt_0_compat, Hp.
Qed.

Lemma percentile_rank_monotonic_witness :
  fle (percentile_of [Finite 3; Finite 5; Finite 4] (Finite 3))
      (percentile_of [Finite 3; Finite 5; Finite 4] (Finite 4)) = true.
Proof.
  apply (proj2 (percentile_rank_monotonic [Finite 3; Finite 5; Finite 4]
                  (Finite 4) (Finite 3))).
  - discriminate.
  - reflexivity.
Defined.

(** ** The aligned series *)




(** Each aligned row holds, at its timestamp, the close the first series
    has there and the close the second series has there. *)
Theorem aligned_rows_values (vix_data sp500_data df : DataFrame) (A B : Series) :
  get_close_price vix_data = Ok A ->
  get_close_price sp500_data = Ok B ->
  combined vix_data sp500_data = Ok df ->
  exists vix sp500,
    getitem df "VIX" = Ok vix /\ getitem df "SP500" = Ok sp500 /\
    length vix = length (df_index df) /\ length sp500 = length (df_index df) /\
    forall i t a b,
      nth_error (df_index df) i = Some t ->
      nth_error vix i = Some a -> nth_error sp500 i = Some b ->
      In (t, a) A /\ In (t, b) B.
Proof.
  intros HA HB Hc.
  destruct (combined_rows _ _ _ _ _ Hc HA HB) as (rows & -> & H1 & _).
  exists (map row_vix (filter complete rows)), (map row_sp500 (filter complete rows)).
  split; [reflexivity|]. split; [reflexivity|].
  cbn [frame_of_rows df_index]. rewrite !length_map.
  split; [reflexivity|]. split; [reflexivity|].
  intros i t a b Ht Ha Hb.
  rewrite nth_error_map in Ht, Ha, Hb.
  destruct (nth_error (filter complete rows) i) as [r|] eqn:E; [|discriminate].
  cbn [option_map] in Ht, Ha, Hb.
  injection Ht as <-. injection Ha as <-. injection Hb as <-.
  apply nth_error_In, filter_In in E as [Hin Hcomp].
  now apply H1.
Qed.

Lemma aligned_rows_values_witness :
  exists vix sp500,
    getitem gap_aligned "VIX" = Ok vix /\ getitem gap_aligned "SP500" = Ok sp500 /\
    length vix = length (df_index gap_aligned) /\
    length sp500 = length (df_index gap_aligned) /\
    forall i t a b,
      nth_error (df_index gap_aligned) i = Some t ->
      nth_error vix i = Some a -> nth_error sp500 i = Some b ->
      In (t, a) [(1, Finite 21); (2, Finite 22); (4, NaN); (5, Finite 25)]%Z
      /\ In (t, b) [(2, Finite 4000); (3, Finite 4010); (4, Finite 4020);
                    (5, Finite 4030)]%Z.
Proof.
  exact (aligned_rows_values gap_vix gap_sp500 gap_aligned
           [(1, Finite 21); (2, Finite 22); (4, NaN); (5, Finite 25)]%Z
           [(2, Finite 4000); (3, Finite 4010); (4, Finite 4020); (5, Finite 4030)]%Z
           eq_refl eq_refl eq_refl).
Defined.

(** ** The ratio *)

Lemma ratio_of_nth (rows : list Row) (i : nat) (a b : float64) :
  nth_error (map row_vix rows) i = Some a ->
  nth_error (map row_sp500 rows) i = Some b ->
  nth_error (ratio_of rows) i = Some (fmul (fdiv a b) (Finite 1000)).
Proof.
  unfold ratio_of. revert i.
  induction rows as [|r rows IH]; intros [|i]; simpl; try discriminate.
  - now intros [= ->] [= ->].
  - apply IH.
Qed.

Lemma ratio_of_length (rows : list Row) : length (ratio_of rows) = length rows.
Proof.
  unfold ratio_of. rewrite length_map, map2_length, !length_map. lia.
Qed.

(** A frame from which a close is read on some day is not empty. *)
Lemma get_close_price_not_empty (data : DataFrame) (A : Series) :
  get_close_price data = Ok A -> A <> [] -> df_empty data = false.
Proof.
  intros H Hne. unfold df_empty.
  assert (Hi : df_index data <> []).
  { intros E. apply Hne. revert H. unfold get_close_price, getitem_series.
    rewrite E.
    repeat match goal with
           | |- context [if ?b then _ else _] => destruct b
           | |- context [match getitem ?d ?k with _ => _ end] => destruct (getitem d k)
           | |- context [match find ?f ?l with _ => _ end] => destruct (find f l)
           | |- context [match rev ?l with _ => _ end] => destruct (rev l) as [|[? ?] ?]
           end; now intros [= <-]. }
  destruct (df_columns data) as [|c cols] eqn:Ec.
  - unfold get_close_price, columns in H. rewrite Ec in H. discriminate H.
  - destruct (df_index data); [contradiction|reflexivity].
Qed.

(** C2, as the code has it.  Every row of the aligned series is a row of
    the table [get_data] returns, with [Ratio = (VIX / SP500) * 1000]:
    for finite closes and a divisor other than 0 that is the exact
    quotient times 1000 (the rounding of binary64 is not modelled; 20 and
    4000 give 5, in binary64 too); a row whose S&P500 close is 0 is not
    removed, its ratio is an infinity or NaN; and [get_data] raises
    nothing and shows no message. *)
Theorem ratio_rows (sqrtQ : Q -> Q)
    (yf_download : string -> Date -> Date -> result DataFrame)
    (start_date end_date : Date) (page : list Element)
    (vix_data sp500_data aligned : DataFrame) :
  yf_download "^VIX"%string start_date end_date = Ok vix_data ->
  yf_download "^GSPC"%string start_date end_date = Ok sp500_data ->
  combined vix_data sp500_data = Ok aligned ->
  df_index aligned <> [] ->
  exists df vix sp500 ratio,
    get_data sqrtQ yf_download start_date end_date page = (Ok (Some df), page) /\
    getitem aligned "VIX" = Ok vix /\ getitem aligned "SP500" = Ok sp500 /\
    df_index df = df_index aligned /\
    getitem df "VIX" = Ok vix /\ getitem df "SP500" = Ok sp500 /\
    getitem df "Ratio" = Ok ratio /\
    length vix = length (df_index aligned) /\
    length sp500 = length (df_index aligned) /\
    length ratio = length (df_index aligned) /\
    (forall i a b,
       nth_error vix i = Some a -> nth_error sp500 i = Some b ->
       nth_error ratio i = Some (fmul (fdiv a b) (Finite 1000)) /\
       (forall qa qb, a = Finite qa -> b = Finite qb -> ~ qb == 0 ->
          fmul (fdiv a b) (Finite 1000) = Finite (qa / qb * 1000)) /\
       (forall qb, b = Finite qb -> qb == 0 ->
          isfinite (fmul (fdiv a b) (Finite 1000)) = false)) /\
    fmul (fdiv (Finite 20) (Finite 4000)) (Finite 1000) =f= Finite 5 /\
    PrimFloat.eqb (PrimFloat.mul (PrimFloat.div 20%float 4000%float) 1000%float) 5%float = true.
Proof.
  intros Hv Hs Hc Hne.
  destruct (combined_inv _ _ _ Hc) as (A & B & HA & HB).
  destruct (combined_rows _ _ _ A B Hc HA HB) as (rows0 & -> & Hin & _).
  set (rows := filter complete rows0) in *.
  assert (Hrows : rows <> []).
  { intros E. apply Hne. now rewrite E. }
  assert (HAB : A <> [] /\ B <> []).
  { destruct rows as [|r rows'] eqn:E; [contradiction|].
    assert (Hr : In r (filter complete rows0)) by (fold rows; rewrite E; now left).
    apply filter_In in Hr as [Hr Hcomp].
    destruct (Hin r Hr Hcomp) as [H1 H2].
    split; intros ->; contradiction. }
  destruct HAB as [NA NB].
  exists (table sqrtQ 20 20 (Finite 2) rows).
  exists (map row_vix rows), (map row_sp500 rows), (ratio_of rows).
  split.
  { unfold get_data.
    apply (get_data_with_rows sqrtQ yf_download 20 20 (Finite 2) start_date end_date
             page vix_data sp500_data rows Hv Hs
             (get_close_price_not_empty _ _ HA NA)
             (get_close_price_not_empty _ _ HB NB) Hc Hrows). }
  do 6 (split; [reflexivity|]). cbn [frame_of_rows df_index].
  rewrite ratio_of_length, !length_map.
  do 3 (split; [reflexivity|]).
  split; [|split; reflexivity].
  intros i a b Ha Hb. split; [now apply ratio_of_nth|]. split.
  - intros qa qb -> -> Hq. cbn [fdiv]. now rewrite Qeq_bool_false.
  - intros qb -> Hq.
    assert (Hle : Qle_bool 0 qb = true) by (apply Qle_bool_true; rewrite Hq; lra).
    destruct a as [qa| | |]; cbn [fdiv]; rewrite ?Hle; try reflexivity.
    rewrite Qeq_bool_true by assumption.
    unfold scale_inf. destruct (Qeq_bool qa 0); [reflexivity|].
    destruct (Qle_bool 0 qa); reflexivity.
Qed.

Lemma ratio_rows_witness :
  exists df vix sp500 ratio,
    get_data sqrt_floor zero_download 0%Z 0%Z [] = (Ok (Some df), []) /\
    getitem (frame_of_rows [(1%Z, (Finite 20, Finite 4000)); (2%Z, (Finite 20, Finite 0))])
      "VIX" = Ok vix /\
    getitem (frame_of_rows [(1%Z, (Finite 20, Finite 4000)); (2%Z, (Finite 20, Finite 0))])
      "SP500" = Ok sp500 /\
    df_index df
    = df_index (frame_of_rows [(1%Z, (Finite 20, Finite 4000)); (2%Z, (Finite 20, Finite 0))]) /\
    getitem df "VIX" = Ok vix /\ getitem df "SP500" = Ok sp500 /\
    getitem df "Ratio" = Ok ratio /\
    length vix
    = length (df_index (frame_of_rows [(1%Z, (Finite 20, Finite 4000));
                                       (2%Z, (Finite 20, Finite 0))])) /\
    length sp500
    = length (df_index (frame_of_rows [(1%Z, (Finite 20, Finite 4000));
                                       (2%Z, (Finite 20, Finite 0))])) /\
    length ratio
    = length (df_index (frame_of_rows [(1%Z, (Finite 20, Finite 4000));
                                       (2%Z, (Finite 20, Finite 0))])) /\
    (forall i a b,
       nth_error vix i = Some a -> nth_error sp500 i = Some b ->
       nth_error ratio i = Some (fmul (fdiv a b) (Finite 1000)) /\
       (forall qa qb, a = Finite qa -> b = Finite qb -> ~ qb == 0 ->
          fmul (fdiv a b) (Finite 1000) = Finite (qa / qb * 1000)) /\
       (forall qb, b = Finite qb -> qb == 0 ->
          isfinite (fmul (fdiv a b) (Finite 1000)) = false)) /\
    fmul (fdiv (Finite 20) (Finite 4000)) (Finite 1000) =f= Finite 5 /\
    PrimFloat.eqb (PrimFloat.mul (PrimFloat.div 20%float 4000%float) 1000%float) 5%float = true.
Proof.
  apply (ratio_rows sqrt_floor zero_download 0%Z 0%Z []
           (mkDataFrame [1; 2]%Z [("Close"%string, [Finite 20; Finite 20])])
           (mkDataFrame [1; 2]%Z [("Close"%string, [Finite 4000; Finite 0])])
           (frame_of_rows [(1%Z, (Finite 20, Finite 4000)); (2%Z, (Finite 20, Finite 0))])).
  - reflexivity.
  - reflexivity.
  - reflexivity.
  - discriminate.
Defined.

(** C2, as the specification has it, fails on [zero_download]: the row
    whose S&P500 close is 0 stays in the table, with an infinite ratio,
    and the run of [main] on that table ends without an exception. *)
Lemma zero_divisor_row_kept :
  exists df ratio0 page,
    get_data sqrt_floor zero_download 0%Z 0%Z [] = (Ok (Some df), [])
    /\ df_index df = [1; 2]%Z
    /\ getitem df "VIX" = Ok [Finite 20; Finite 20]
    /\ getitem df "SP500" = Ok [Finite 4000; Finite 0]
    /\ getitem df "Ratio" = Ok [ratio0; PosInf]
    /\ ratio0 =f= Finite 5
    /\ main sqrt_floor zero_download (mkSidebar 0 0 true true true true) []
       = (Ok tt, page).
Proof.
  do 3 eexists. split; [reflexivity|].
  do 4 (split; [reflexivity|]).
  split; reflexivity.
Qed.

(** ** The result of [get_data] *)

Lemma rolling_std_length (sqrtQ : Q -> Q) (w : nat) (l : list float64) :
  length (rolling_std sqrtQ w l) = length l.
Proof. unfold rolling_std. now rewrite length_map, rolling_apply_length. Qed.

Lemma table_columns_length (sqrtQ : Q -> Q) (w p : nat) (K : float64) (rows : list Row) :
  Forall (fun c => length (snd c) = length (df_index (table sqrtQ w p K rows)))
         (df_columns (table sqrtQ w p K rows)).
Proof.
  cbn [table df_index df_columns].
  repeat constructor; cbn [snd];
    rewrite ?map2_length, ?length_map, ?rolling_mean_length, ?rolling_std_length,
      ?ratio_of_length, ?length_map; lia.
Qed.

Lemma get_data_with_not_Some (sqrtQ : Q -> Q)
    (yf_download : string -> Date -> Date -> result DataFrame)
    (w p : nat) (K : float64) (start_date end_date : Date)
    (page page' : list Element) (r : result (option DataFrame)) :
  get_data_with sqrtQ yf_download w p K start_date end_date page = (r, page') ->
  (exists df, r = Ok (Some df))
  \/ (r = Ok None /\ exists msg rest, page' = page ++ StError msg :: rest).
Proof.
  rewrite get_data_with_run. unfold download_failed.
  destruct (yf_download "^VIX"%string start_date end_date) as [vix_data|e];
    [|intros [= <- <-]; right; eauto].
  destruct (yf_download "^GSPC"%string start_date end_date) as [sp500_data|e];
    [|intros [= <- <-]; right; eauto].
  destruct (df_empty vix_data || df_empty sp500_data);
    [intros [= <- <-]; right; eauto|].
  destruct (combined vix_data sp500_data) as [cd|e];
    [|intros [= <- <-]; right; eauto].
  destruct (df_empty cd); [intros [= <- <-]; right; eauto|].
  destruct (indicators sqrtQ w p K cd) as [df|e]; intros [= <- <-]; [left|right]; eauto.
Qed.

(** C10.  [get_data] never raises.  When it returns a table it has
    written nothing to the page, and the table has at least one row, the
    seven columns VIX, SP500, Ratio, Ratio_MA_20, BB_Middle, BB_Upper and
    BB_Lower over its timestamp index, each with one cell per row, and no
    NaN in VIX and SP500.  Otherwise it returns [None] after an error
    message: [None] is the only signal of the no-data or error state. *)
Theorem get_data_result (sqrtQ : Q -> Q)
    (yf_download : string -> Date -> Date -> result DataFrame)
    (start_date end_date : Date) (page : list Element) :
  match get_data sqrtQ yf_download start_date end_date page with
  | (Ok (Some df), page') =>
      page' = page
      /\ df_index df <> []
      /\ columns df = ["VIX"; "SP500"; "Ratio"; "Ratio_MA_20";
                       "BB_Middle"; "BB_Upper"; "BB_Lower"]%string
      /\ Forall (fun c => length (snd c) = length (df_index df)) (df_columns df)
      /\ (forall key values,
            key = "VIX"%string \/ key = "SP500"%string ->
            getitem df key = Ok values ->
            Forall (fun v => isnan v = false) values)
  | (Ok None, page') => exists msg rest, page' = page ++ StError msg :: rest
  | (Raise _, _) => False
  end.
Proof.
  destruct (get_data sqrtQ yf_download start_date end_date page) as [r page'] eqn:E.
  unfold get_data in E.
  destruct (get_data_with_not_Some _ _ _ _ _ _ _ _ _ _ E) as [(df & ->)|(-> & H)];
    [|exact H].
  apply get_data_with_Some in E
    as (-> & _ & _ & _ & _ & rows & _ & _ & _ & _ & _ & Hne & Hc & _ & ->).
  split; [reflexivity|]. split.
  - cbn [table df_index]. destruct rows; [contradiction|discriminate].
  - split; [reflexivity|]. split; [apply table_columns_length|].
    intros key values [->| ->]; cbn; intros [= <-];
      apply Forall_forall; intros v Hv;
      apply in_map_iff in Hv as (r & <- & Hr);
      rewrite Forall_forall in Hc; specialize (Hc r Hr);
      unfold complete, notna in Hc; apply andb_true_iff in Hc as [H1 H2];
      [now apply negb_true_iff in H1 | now apply negb_true_iff in H2].
Qed.

(** ** No data *)

Lemma main_no_data (sqrtQ : Q -> Q)
    (yf_download : string -> Date -> Date -> result DataFrame)
    (sidebar : Sidebar) (page page1 : list Element) :
  get_data sqrtQ yf_download (start_date sidebar) (end_date sidebar) page
  = (Ok None, page1) ->
  main sqrtQ yf_download sidebar page = (Ok tt, page1 ++ no_data_page).
Proof.
  intros H. unfold main, bind. rewrite H.
  unfold st_error, show, no_data_page, footer. cbn.
  now rewrite <- !app_assoc.
Qed.

(** C6.  When one of the two downloads is empty, or the aligned series
    is empty, [get_data] returns [None] after one error message (a
    different one in the two cases), and [main] then shows only the
    no-data error and the footer: no metric, chart, statistic or table is
    computed. *)
Theorem no_data (sqrtQ : Q -> Q)
    (yf_download : string -> Date -> Date -> result DataFrame)
    (sidebar : Sidebar) (page : list Element) (vix_data sp500_data : DataFrame) :
  yf_download "^VIX"%string (start_date sidebar) (end_date sidebar) = Ok vix_data ->
  yf_download "^GSPC"%string (start_date sidebar) (end_date sidebar) = Ok sp500_data ->
  df_empty vix_data = true \/ df_empty sp500_data = true
  \/ (exists combined_data,
        combined vix_data sp500_data = Ok combined_data
        /\ df_empty combined_data = true) ->
  let msg :=
    (if df_empty vix_data || df_empty sp500_data
     then "Impossibile scaricare i dati. Controlla la connessione internet."
     else "Nessun dato valido trovato per il periodo selezionato.")%string in
  get_data sqrtQ yf_download (start_date sidebar) (end_date sidebar) page
  = (Ok None, page ++ [StError msg])
  /\ main sqrtQ yf_download sidebar page
     = (Ok tt, page ++ StError msg :: no_data_page)
  /\ "Impossibile scaricare i dati. Controlla la connessione internet."%string
     <> "Nessun dato valido trovato per il periodo selezionato."%string.
Proof.
  intros Hv Hs Hempty msg.
  assert (Hget : get_data sqrtQ yf_download (start_date sidebar) (end_date sidebar) page
                 = (Ok None, page ++ [StError msg])).
  { unfold get_data. rewrite get_data_with_run, Hv, Hs. subst msg.
    destruct (df_empty vix_data || df_empty sp500_data) eqn:E; [reflexivity|].
    apply orb_false_iff in E as [E1 E2].
    destruct Hempty as [H|[H|(cd & Hc & He)]]; try congruence.
    now rewrite Hc, He. }
  split; [exact Hget|]. split; [|discriminate].
  rewrite (main_no_data _ _ _ _ _ Hget). now rewrite <- app_assoc.
Qed.

Lemma no_data_witness :
  get_data sqrt_floor empty_download 0%Z 0%Z []
  = (Ok None,
     [StError "Impossibile scaricare i dati. Controlla la connessione internet."])
  /\ main sqrt_floor empty_download (mkSidebar 0 0 true true true true) []
     = (Ok tt,
        StError "Impossibile scaricare i dati. Controlla la connessione internet."
        :: no_data_page)
  /\ "Impossibile scaricare i dati. Controlla la connessione internet."%string
     <> "Nessun dato valido trovato per il periodo selezionato."%string.
Proof.
  apply (no_data sqrt_floor empty_download (mkSidebar 0 0 true true true true) []
           (mkDataFrame [1]%Z [("Close"%string, [Finite 20])])
           (mkDataFrame [] [("Close"%string, [])])).
  - reflexivity.
  - reflexivity.
  - right. left. reflexivity.
Defined.

(** ** Script runs *)

Lemma appends_ret (A : Type) (a : A) : appends (ret a).
Proof. exists (Ok a), []. intros page. unfold ret. now rewrite app_nil_r. Qed.

Lemma appends_lift (A : Type) (r : result A) : appends (lift r).
Proof. exists r, []. intros page. unfold lift. now rewrite app_nil_r. Qed.

Lemma appends_show (e : Element) : appends (show e).
Proof. exists (Ok tt), [e]. reflexivity. Qed.

Lemma appends_bind (A B : Type) (m : UI A) (k : A -> UI B) :
  appends m -> (forall a, appends (k a)) -> appends (bind m k).
Proof.
  intros (r & out & Hm) Hk. destruct r as [a|e].
  - destruct (Hk a) as (r' & out' & Hka).
    exists r', (out ++ out'). intros page. unfold bind.
    now rewrite Hm, Hka, app_assoc.
  - exists (Raise e), out. intros page. unfold bind. now rewrite Hm.
Qed.

Section Runs.

Variable sqrtQ : Q -> Q.
Variable yf_download : string -> Date -> Date -> result DataFrame.

Lemma after_chart_appends (s e : Date) (data : DataFrame) :
  appends (after_chart sqrtQ s e data).
Proof.
  unfold after_chart, statistics, percentile_panel.
  repeat first
    [ apply appends_ret | apply appends_lift | apply appends_show
    | apply appends_bind; [|intros ?] ].
Qed.

(** On a table of [get_data] every trace finds its column. *)
Lemma traces_table (sidebar : Sidebar) (K : float64) (rows : list Row) :
  exists fig, forall page,
    traces sidebar (table sqrtQ 20 20 K rows) page = (Ok fig, page).
Proof.
  unfold traces, bind, lift, ret.
  destruct (show_ma sidebar), (show_bb sidebar), (show_vix sidebar),
    (show_sp500 sidebar); eexists; intros page; reflexivity.
Qed.

Lemma main_table (sidebar : Sidebar) (page page1 : list Element)
    (df : DataFrame) (fig : list Trace) :
  get_data sqrtQ yf_download (start_date sidebar) (end_date sidebar) page
  = (Ok (Some df), page1) ->
  df_empty df = false ->
  (forall p, traces sidebar df p = (Ok fig, p)) ->
  main sqrtQ yf_download sidebar page =
  match before_chart df page1 with
  | (Raise e, p) => (Raise e, p)
  | (Ok _, p) =>
      match after_chart sqrtQ (start_date sidebar) (end_date sidebar) df
              (p ++ [StPlotlyChart (show_vix sidebar || show_sp500 sidebar) fig]) with
      | (Raise e, p') => (Raise e, p')
      | (Ok _, p') => (Ok tt, p' ++ footer)
      end
  end.
Proof.
  intros Hget Hne Htr.
  unfold main, before_chart, after_chart, footer.
  unfold bind at 1. rewrite Hget, Hne. cbn [negb].
  unfold bind, show.
  repeat match goal with
  | |- context [metric ?d ?k ?l ?p] =>
      let r := fresh "r" in let q := fresh "q" in
      destruct (metric d k l p) as [[[]|?] q]; try reflexivity
  end.
  rewrite Htr.
  repeat match goal with
  | |- context [statistics ?s ?d ?p] =>
      destruct (statistics s d p) as [[[]|?] ?]; try reflexivity
  | |- context [percentile_panel ?d ?p] =>
      destruct (percentile_panel d p) as [[[]|?] ?]; try reflexivity
  end.
  now rewrite <- !app_assoc.
Qed.

End Runs.

Lemma table_not_empty (sqrtQ : Q -> Q) (w p : nat) (K : float64) (rows : list Row) :
  rows <> [] -> df_empty (table sqrtQ w p K rows) = false.
Proof. destruct rows; [contradiction|reflexivity]. Qed.

(** C8.  Two runs on the same downloads and date range that differ only
    in the four check boxes get the same table from [get_data], end the
    same way, and show the same page but for the figure. *)
Theorem toggles_presentation_only (sqrtQ : Q -> Q)
    (yf_download : string -> Date -> Date -> result DataFrame)
    (sidebar1 sidebar2 : Sidebar) (page : list Element) :
  start_date sidebar1 = start_date sidebar2 ->
  end_date sidebar1 = end_date sidebar2 ->
  get_data sqrtQ yf_download (start_date sidebar1) (end_date sidebar1) page
  = get_data sqrtQ yf_download (start_date sidebar2) (end_date sidebar2) page
  /\ fst (main sqrtQ yf_download sidebar1 page)
     = fst (main sqrtQ yf_download sidebar2 page)
  /\ without_chart (snd (main sqrtQ yf_download sidebar1 page))
     = without_chart (snd (main sqrtQ yf_download sidebar2 page)).
Proof.
  intros Hs He. split; [now rewrite Hs, He|].
  destruct (get_data sqrtQ yf_download (start_date sidebar1) (end_date sidebar1) page)
    as [r page1] eqn:E1.
  assert (E2 : get_data sqrtQ yf_download (start_date sidebar2) (end_date sidebar2) page
               = (r, page1)) by now rewrite <- Hs, <- He.
  destruct r as [[df|]|e].
  - pose proof E1 as E. apply get_data_with_Some in E
      as (_ & _ & _ & _ & _ & rows & _ & _ & _ & _ & _ & Hne & _ & _ & ->).
    destruct (traces_table sqrtQ sidebar1 (Finite 2) rows) as (fig1 & Hf1).
    destruct (traces_table sqrtQ sidebar2 (Finite 2) rows) as (fig2 & Hf2).
    rewrite (main_table _ _ _ _ _ _ _ E1 (table_not_empty _ _ _ _ _ Hne) Hf1).
    rewrite (main_table _ _ _ _ _ _ _ E2 (table_not_empty _ _ _ _ _ Hne) Hf2).
    rewrite <- Hs, <- He.
    destruct (before_chart (table sqrtQ 20 20 (Finite 2) rows) page1) as [[[]|e] p];
      [|split; reflexivity].
    destruct (after_chart_appends sqrtQ (start_date sidebar1) (end_date sidebar1)
                (table sqrtQ 20 20 (Finite 2) rows)) as (r2 & out & Ha).
    rewrite !Ha. unfold without_chart.
    destruct r2 as [[]|e]; cbn [fst snd]; (split; [reflexivity|]);
      now rewrite !filter_app.
  - rewrite (main_no_data _ _ _ _ _ E1), (main_no_data _ _ _ _ _ E2).
    split; reflexivity.
  - unfold main, bind. rewrite E1, E2. split; reflexivity.
Qed.

Lemma toggles_presentation_only_witness :
  get_data sqrt_floor (sample_download rising 21) 0%Z 0%Z []
  = get_data sqrt_floor (sample_download rising 21) 0%Z 0%Z []
  /\ fst (main sqrt_floor (sample_download rising 21) (mkSidebar 0 0 true true true true) [])
     = fst (main sqrt_floor (sample_download rising 21) (mkSidebar 0 0 false false false false) [])
  /\ without_chart
       (snd (main sqrt_floor (sample_download rising 21) (mkSidebar 0 0 true true true true) []))
     = without_chart
         (snd (main sqrt_floor (sample_download rising 21)
                 (mkSidebar 0 0 false false false false) [])).
Proof.
  apply (toggles_presentation_only sqrt_floor (sample_download rising 21)
           (mkSidebar 0 0 true true true true)
           (mkSidebar 0 0 false false false false) []); reflexivity.
Defined.

(** ** The standard deviation of the summary *)

Lemma nanvar_Finite (qs : list Q) :
  (2 <= length qs)%nat ->
  exists v, nanvar 1 (map Finite qs) = Finite v /\ v == sample_variance qs.
Proof.
  intros Hn. unfold nanvar.
  rewrite observations_Finite, length_map.
  destruct (Nat.leb_spec (length qs) 1) as [?|_]; [lia|].
  rewrite fsum_Finite, fdiv_Finite_nat by lia.
  rewrite map_map. cbn [fsub fneg fadd fmul].
  rewrite <- (map_map (fun q => (Qsum qs / inject_Z (Z.of_nat (length qs)) + - q)
                               * (Qsum qs / inject_Z (Z.of_nat (length qs)) + - q)) Finite).
  rewrite fsum_Finite, fdiv_Finite_nat by lia.
  eexists. split; [reflexivity|].
  unfold sample_variance, Qsqdev.
  apply Qmult_comp; [|reflexivity].
  apply Qsum_map_ext. intros q _. unfold Qmean. ring.
Qed.

Lemma sample_variance_nonneg (qs : list Q) : 0 <= sample_variance qs.
Proof.
  unfold sample_variance.
  pose proof (Qsqdev_nonneg qs) as H.
  pose proof (inject_nat_nonneg (length qs - 1)) as Hn.
  destruct (Qeq_dec (inject_Z (Z.of_nat (length qs - 1))) 0) as [E|E].
  - unfold Qdiv. rewrite E. unfold Qinv. simpl. lra.
  - apply Qle_shift_div_l; lra.
Qed.

Lemma Series_std_sample (sqrtQ : Q -> Q) (qs : list Q) :
  (forall q q', q == q' -> sqrtQ q == sqrtQ q') ->
  (2 <= length qs)%nat ->
  Series_std sqrtQ (map Finite qs) =f= Finite (sqrtQ (sample_variance qs)).
Proof.
  intros Hproper Hn. unfold Series_std.
  destruct (nanvar_Finite qs Hn) as (v & -> & Hv).
  unfold fsqrt. rewrite Qle_bool_true.
  - simpl. now apply Hproper.
  - rewrite Hv. apply sample_variance_nonneg.
Qed.

Lemma Series_std_single (sqrtQ : Q -> Q) (qs : list Q) :
  (length qs <= 1)%nat -> Series_std sqrtQ (map Finite qs) = NaN.
Proof.
  intros Hn. unfold Series_std, nanvar.
  rewrite observations_Finite, length_map.
  destruct (Nat.leb_spec (length qs) 1) as [_|?]; [reflexivity|lia].
Qed.

(** The summary table is the second element [statistics] shows. *)
Lemma statistics_shows (sqrtQ : Q -> Q) (data : DataFrame) (ratio : list float64)
    (page : list Element) :
  getitem data "Ratio" = Ok ratio ->
  exists r rest,
    statistics sqrtQ data page
    = (r, page ++ StWrite "Statistiche sul rapporto VIX/S&P500:" []
               :: StStats [("Media", Series_mean ratio);
                           ("Mediana", Series_median ratio);
                           ("Minimo", Series_min ratio);
                           ("Massimo", Series_max ratio);
                           ("Deviazione Standard", Series_std sqrtQ ratio)]%string
               :: rest).
Proof.
  intros Hr. unfold statistics.
  unfold bind at 1. unfold show at 1.
  unfold bind at 1. unfold lift at 1. rewrite Hr.
  unfold bind at 1. unfold show at 1.
  match goal with
  | |- context [bind ?m ?k] =>
      assert (Ha : appends (bind m k))
  end.
  { repeat first
      [ apply appends_ret | apply appends_lift | apply appends_show
      | apply appends_bind; [|intros ?] ]. }
  destruct Ha as (r & out & Ha). rewrite Ha.
  exists r, out. now rewrite <- !app_assoc.
Qed.

(** C1, as the code has it.  The last row of the summary table that
    [main] shows, "Deviazione Standard", is [data['Ratio'].std()]; for a
    series of at least two finite ratios it is the sample standard
    deviation, the root of the squared deviations from the mean divided
    by [n - 1], and for a single ratio it is NaN. *)
Theorem summary_std_is_sample_std (sqrtQ : Q -> Q) (data : DataFrame)
    (qs : list Q) (page : list Element) :
  (forall q q', q == q' -> sqrtQ q == sqrtQ q') ->
  getitem data "Ratio" = Ok (map Finite qs) ->
  exists mean median minimum maximum sd r rest,
    statistics sqrtQ data page
    = (r, page ++ StWrite "Statistiche sul rapporto VIX/S&P500:" []
               :: StStats [("Media", mean); ("Mediana", median);
                           ("Minimo", minimum); ("Massimo", maximum);
                           ("Deviazione Standard", sd)]%string
               :: rest)
    /\ sd = Series_std sqrtQ (map Finite qs)
    /\ ((2 <= length qs)%nat -> sd =f= Finite (sqrtQ (sample_variance qs)))
    /\ ((length qs <= 1)%nat -> sd = NaN).
Proof.
  intros Hproper Hr.
  destruct (statistics_shows sqrtQ data _ page Hr) as (r & rest & H).
  do 4 eexists. exists (Series_std sqrtQ (map Finite qs)), r, rest.
  split; [exact H|]. split; [reflexivity|]. split.
  - now apply Series_std_sample.
  - apply Series_std_single.
Qed.

Lemma summary_std_is_sample_std_witness :
  exists mean median minimum maximum sd r rest,
    statistics sqrt_floor (sample_table rising 3) []
    = (r, [] ++ StWrite "Statistiche sul rapporto VIX/S&P500:" []
               :: StStats [("Media", mean); ("Mediana", median);
                           ("Minimo", minimum); ("Massimo", maximum);
                           ("Deviazione Standard", sd)]%string
               :: rest)
    /\ sd = Series_std sqrt_floor
              (map Finite (map (fun i => rising i / 4000 * 1000) [1; 2; 3]%nat))
    /\ ((2 <= 3)%nat ->
        sd =f= Finite (sqrt_floor
                         (sample_variance
                            (map (fun i => rising i / 4000 * 1000) [1; 2; 3]%nat))))
    /\ ((3 <= 1)%nat -> sd = NaN).
Proof.
  apply (summary_std_is_sample_std sqrt_floor (sample_table rising 3)
           (map (fun i => rising i / 4000 * 1000) [1; 2; 3]%nat) []).
  - exact sqrt_floor_proper.
  - reflexivity.
Defined.

(** C1, as the specification has it, fails on two trading days with the
    ratios 1 and 3: the deviation shown is the root of 2 (divisor
    [n - 1]), the population deviation is 1. *)
Lemma summary_std_not_population :
  exists df r1 r2 mean median minimum maximum sd r rest,
    get_data sqrt_floor two_day_download 0%Z 0%Z [] = (Ok (Some df), [])
    /\ getitem df "Ratio" = Ok [r1; r2]
    /\ r1 =f= Finite 1 /\ r2 =f= Finite 3
    /\ statistics sqrt_floor df []
       = (r, StWrite "Statistiche sul rapporto VIX/S&P500:" []
             :: StStats [("Media", mean); ("Mediana", median);
                         ("Minimo", minimum); ("Massimo", maximum);
                         ("Deviazione Standard", sd)]%string
             :: rest)
    /\ sd = Finite (sqrt_floor 2)
    /\ sqrt_floor (population_variance [1; 3]) == 1
    /\ ~ sd =f= Finite (sqrt_floor (population_variance [1; 3])).
Proof.
  destruct (statistics_shows sqrt_floor (table sqrt_floor 20 20 (Finite 2) two_day_rows)
              (ratio_of two_day_rows) [] eq_refl) as (r & rest & H).
  exists (table sqrt_floor 20 20 (Finite 2) two_day_rows).
  exists (Finite (4 / 4000 * 1000)), (Finite (12 / 4000 * 1000)).
  do 4 eexists. exists (Finite (sqrt_floor 2)), r, rest.
  split; [reflexivity|]. split; [reflexivity|].
  split; [reflexivity|]. split; [reflexivity|].
  split; [exact H|]. split; [reflexivity|]. split; [reflexivity|].
  intros E. discriminate E.
Qed.

(** ** A table of one row *)

(** C9, at the failing input.  On a date range with one common trading
    day [get_data] returns a table of one row, and [main] then raises
    IndexError at [data['VIX'].iloc[-2]], outside any [try]: the run ends
    in an uncaught exception after the first subheader. *)
Theorem main_single_row_raises (sqrtQ : Q -> Q) (sidebar : Sidebar) :
  exists df,
    get_data sqrtQ one_day_download (start_date sidebar) (end_date sidebar) []
    = (Ok (Some df), [])
    /\ df_index df = [1%Z]
    /\ main sqrtQ one_day_download sidebar []
       = (Raise (IndexError "single positional indexer is out-of-bounds"),
          [StSubheader "Informazioni sugli Indici"]).
Proof.
  eexists. split; [reflexivity|]. split; reflexivity.
Qed.

(** Whenever [get_data] returns a table of exactly one row, [main] raises
    IndexError at [data['VIX'].iloc[-2]], after the first subheader. *)
Theorem main_raises_on_one_row (sqrtQ : Q -> Q)
    (yf_download : string -> Date -> Date -> result DataFrame)
    (sidebar : Sidebar) (page page' : list Element) (df : DataFrame) :
  get_data sqrtQ yf_download (start_date sidebar) (end_date sidebar) page
  = (Ok (Some df), page') ->
  length (df_index df) = 1%nat ->
  main sqrtQ yf_download sidebar page
  = (Raise (IndexError "single positional indexer is out-of-bounds"),
     page ++ [StSubheader "Informazioni sugli Indici"]).
Proof.
  intros H Hlen. pose proof H as H'.
  apply get_data_with_Some in H'
    as (-> & _ & _ & _ & _ & rows & _ & _ & _ & _ & _ & _ & _ & _ & ->).
  cbn [table df_index] in Hlen. rewrite length_map in Hlen.
  destruct rows as [|r [|r' rows]]; try discriminate Hlen.
  unfold main. unfold bind at 1. rewrite H. reflexivity.
Qed.

Lemma main_raises_on_one_row_witness :
  main sqrt_floor one_day_download (mkSidebar 0 0 true true true true) []
  = (Raise (IndexError "single positional indexer is out-of-bounds"),
     [] ++ [StSubheader "Informazioni sugli Indici"]).
Proof.
  apply (main_raises_on_one_row sqrt_floor one_day_download
           (mkSidebar 0 0 true true true true) [] []
           (table sqrt_floor 20 20 (Finite 2) [(1%Z, (Finite 20, Finite 4000))])).
  - reflexivity.
  - reflexivity.
Defined.

(** * Further properties *)

(** ** The [except] branch of [get_data] *)

(** Whatever raises inside the [try] of [get_data] (a download, or the
    alignment of the two closes) ends in [None] after the error message
    that quotes the exception and the suggestion; [main] then adds the
    no-data error and the footer, and nothing is raised. *)
Theorem get_data_failure (sqrtQ : Q -> Q)
    (yf_download : string -> Date -> Date -> result DataFrame)
    (sidebar : Sidebar) (page : list Element) (e : exn) :
  yf_download "^VIX"%string (start_date sidebar) (end_date sidebar) = Raise e
  \/ (exists vix_data,
        yf_download "^VIX"%string (start_date sidebar) (end_date sidebar) = Ok vix_data
        /\ yf_download "^GSPC"%string (start_date sidebar) (end_date sidebar) = Raise e)
  \/ (exists vix_data sp500_data,
        yf_download "^VIX"%string (start_date sidebar) (end_date sidebar) = Ok vix_data
        /\ yf_download "^GSPC"%string (start_date sidebar) (end_date sidebar)
           = Ok sp500_data
        /\ df_empty vix_data = false /\ df_empty sp500_data = false
        /\ combined vix_data sp500_data = Raise e) ->
  get_data sqrtQ yf_download (start_date sidebar) (end_date sidebar) page
  = (Ok None,
     page ++ [StError ("Errore nel download dei dati: " ++ str_exn e);
              StInfo "Suggerimento: Prova a modificare l'intervallo di date o riprova più tardi."])
  /\ main sqrtQ yf_download sidebar page
     = (Ok tt,
        page ++ [StError ("Errore nel download dei dati: " ++ str_exn e);
                 StInfo "Suggerimento: Prova a modificare l'intervallo di date o riprova più tardi."]
             ++ no_data_page).
Proof.
  intros H.
  assert (Hget : get_data sqrtQ yf_download (start_date sidebar) (end_date sidebar) page
                 = (Ok None, download_failed e page)).
  { unfold get_data. rewrite get_data_with_run.
    destruct H as [H|[(vd & Hv & Hs)|(vd & sd & Hv & Hs & E1 & E2 & Hc)]].
    - now rewrite H.
    - now rewrite Hv, Hs.
    - now rewrite Hv, Hs, E1, E2, Hc. }
  split; [exact Hget|].
  rewrite (main_no_data _ _ _ _ _ Hget). unfold download_failed.
  now rewrite <- app_assoc.
Qed.

Lemma get_data_failure_witness :
  get_data sqrt_floor failing_download 0%Z 0%Z []
  = (Ok None,
     [] ++ [StError "Errore nel download dei dati: connection refused";
            StInfo "Suggerimento: Prova a modificare l'intervallo di date o riprova più tardi."])
  /\ main sqrt_floor failing_download (mkSidebar 0 0 true true true true) []
     = (Ok tt,
        [] ++ [StError "Errore nel download dei dati: connection refused";
               StInfo "Suggerimento: Prova a modificare l'intervallo di date o riprova più tardi."]
           ++ no_data_page).
Proof.
  apply (get_data_failure sqrt_floor failing_download
           (mkSidebar 0 0 true true true true) [] (DownloadError "connection refused")).
  left. reflexivity.
Defined.

(** ** The close-price column *)

Lemma assoc_In (A : Type) (key : string) (l : list (string * A)) (v : A) :
  assoc key l = Some v -> In (key, v) l.
Proof.
  induction l as [|[k w] l IH]; simpl; [discriminate|].
  destruct (String.eqb_spec k key) as [->|_].
  - intros [= ->]. now left.
  - intros H. right. now apply IH.
Qed.

Lemma assoc_found (A : Type) (key : string) (l : list (string * A)) :
  In key (map fst l) -> exists v, assoc key l = Some v.
Proof.
  induction l as [|[k w] l IH]; simpl; [contradiction|].
  intros [->|H].
  - rewrite String.eqb_refl. eauto.
  - destruct (String.eqb k key); [eauto|now apply IH].
Qed.

Lemma existsb_eqb_In (key : string) (l : list string) :
  existsb (String.eqb key) l = true <-> In key l.
Proof.
  rewrite existsb_exists. split.
  - intros (x & Hx & E). apply String.eqb_eq in E. now subst.
  - intros H. exists key. split; [assumption|apply String.eqb_refl].
Qed.

Lemma getitem_series_found (data : DataFrame) (key : string) :
  In key (columns data) ->
  exists values, In (key, values) (df_columns data)
    /\ getitem_series data key = Ok (combine (df_index data) values).
Proof.
  intros H. unfold getitem_series, getitem.
  destruct (assoc_found _ key (df_columns data) H) as (v & E). rewrite E.
  exists v. split; [now apply assoc_In|reflexivity].
Qed.

(** On a frame with at least one column [get_close_price] never raises:
    it returns one of the frame's columns on the frame's index, namely
    "Adj Close" when there is one, else "Close" when there is one, else
    a column whose label contains "Adj Close" or "Close", and the last
    column when no label does. *)
Theorem get_close_price_column (data : DataFrame) :
  df_columns data <> [] ->
  exists label values,
    In (label, values) (df_columns data)
    /\ get_close_price data = Ok (combine (df_index data) values)
    /\ (In "Adj Close"%string (columns data) -> label = "Adj Close"%string)
    /\ (~ In "Adj Close"%string (columns data) ->
        In "Close"%string (columns data) -> label = "Close"%string)
    /\ (~ In "Adj Close"%string (columns data) ->
        ~ In "Close"%string (columns data) ->
        contains "Adj Close" label || contains "Close" label = true
        \/ (forall col, In col (columns data) ->
              contains "Adj Close" col || contains "Close" col = false)
           /\ exists rest, df_columns data = rest ++ [(label, values)]).
Proof.
  intros Hne. unfold get_close_price.
  destruct (existsb (String.eqb "Adj Close") (columns data)) eqn:Eadj.
  { apply existsb_eqb_In in Eadj.
    destruct (getitem_series_found data _ Eadj) as (v & Hin & ->).
    exists "Adj Close"%string, v.
    split; [exact Hin|]. split; [reflexivity|]. split; [reflexivity|].
    split; intros Hn; contradiction. }
  assert (Hnadj : ~ In "Adj Close"%string (columns data)).
  { intros H. apply existsb_eqb_In in H. congruence. }
  destruct (existsb (String.eqb "Close") (columns data)) eqn:Ecl.
  { apply existsb_eqb_In in Ecl.
    destruct (getitem_series_found data _ Ecl) as (v & Hin & ->).
    exists "Close"%string, v.
    split; [exact Hin|]. split; [reflexivity|]. split; [contradiction|].
    split; [reflexivity|]. intros _ Hn. contradiction. }
  assert (Hncl : ~ In "Close"%string (columns data)).
  { intros H. apply existsb_eqb_In in H. congruence. }
  destruct (find _ (columns data)) as [col|] eqn:Ef.
  { apply find_some in Ef as [Hcol Hc].
    destruct (getitem_series_found data _ Hcol) as (v & Hin & ->).
    exists col, v.
    split; [exact Hin|]. split; [reflexivity|]. split; [contradiction|].
    split; [contradiction|]. intros _ _. now left. }
  destruct (df_columns data) as [|c cols] eqn:Ecols using rev_ind;
    [contradiction|].
  destruct c as [label values]. rewrite rev_app_distr. simpl.
  exists label, values.
  split; [apply in_or_app; right; now left|]. split; [reflexivity|].
  split; [contradiction|]. split; [contradiction|]. intros _ _. right.
  split; [|now exists cols].
  intros col Hcol. exact (find_none _ _ Ef col Hcol).
Qed.

Lemma get_close_price_column_witness :
  exists label values,
    In (label, values) (df_columns (sample_frame 1 flat))
    /\ get_close_price (sample_frame 1 flat)
       = Ok (combine (df_index (sample_frame 1 flat)) values)
    /\ (In "Adj Close"%string (columns (sample_frame 1 flat)) ->
        label = "Adj Close"%string)
    /\ (~ In "Adj Close"%string (columns (sample_frame 1 flat)) ->
        In "Close"%string (columns (sample_frame 1 flat)) ->
        label = "Close"%string)
    /\ (~ In "Adj Close"%string (columns (sample_frame 1 flat)) ->
        ~ In "Close"%string (columns (sample_frame 1 flat)) ->
        contains "Adj Close" label || contains "Close" label = true
        \/ (forall col, In col (columns (sample_frame 1 flat)) ->
              contains "Adj Close" col || contains "Close" col = false)
           /\ exists rest,
                df_columns (sample_frame 1 flat)
                = rest ++ [(label, values)]).
Proof.
  apply (get_close_price_column (sample_frame 1 flat)).
  discriminate.
Defined.

(** ** Alignment, case by case *)

(** The rows [combined] keeps: the two series paired by position when
    they have the same index, else the first series with the values
    looked up in the second, which must then have unique timestamps. *)
Lemma combined_run (vix_data sp500_data : DataFrame) (A B : Series) :
  get_close_price vix_data = Ok A ->
  get_close_price sp500_data = Ok B ->
  A <> [] ->
  combined vix_data sp500_data =
  if index_equals (map fst B) (map fst A)
  then Ok (frame_of_rows (filter complete (zip_rows A B)))
  else if is_unique (map fst B)
  then Ok (frame_of_rows (filter complete (reindexed_rows A B)))
  else Raise (ValueError "cannot reindex on an axis with duplicate labels").
Proof.
  intros HA HB Hne. unfold combined. rewrite HA. cbn [rbind].
  rewrite setitem_vix. cbn [rbind]. rewrite HB. cbn [rbind].
  unfold setitem_series, ensure_valid_index.
  cbn [df_index df_columns]. rewrite length_map.
  destruct A as [|x A]; [contradiction|].
  cbn [length Nat.eqb andb df_index df_columns].
  unfold reindex_for_setitem.
  destruct (index_equals (map fst B) (map fst (x :: A))) eqn:E.
  - apply index_equals_true in E.
    cbn [orb]. simpl String.eqb. cbn [set_column]. simpl String.eqb. cbn match.
    cbn [rbind].
    destruct (zip_rows_spec (x :: A) B E) as (H1 & H2 & H3 & _).
    rewrite <- dropna_frame_of_rows. unfold frame_of_rows.
    now rewrite H1, H2, H3.
  - cbn [orb length Nat.eqb].
    destruct (is_unique (map fst B)); cbn [negb]; [|reflexivity].
    simpl String.eqb. cbn [set_column]. simpl String.eqb. cbn match.
    cbn [rbind].
    destruct (reindexed_rows_spec (x :: A) B) as (H1 & H2 & H3 & _).
    rewrite <- dropna_frame_of_rows. unfold frame_of_rows.
    now rewrite H1, H2, H3.
Qed.

Lemma is_unique_NoDup (l : list Timestamp) : is_unique l = true <-> NoDup l.
Proof.
  induction l as [|t l IH]; simpl.
  - split; [constructor|reflexivity].
  - rewrite andb_true_iff, negb_true_iff, IH. split.
    + intros [H1 H2]. constructor; [|assumption].
      intros Hin. apply not_true_iff_false in H1. apply H1.
      apply existsb_exists. exists t. split; [assumption|apply Z.eqb_refl].
    + intros H. inversion H as [|? ? Hn Hd]; subst. split; [|assumption].
      apply not_true_iff_false. intros He.
      apply existsb_exists in He as (x & Hx & Ex). apply Z.eqb_eq in Ex.
      now subst.
Qed.

Lemma unique_value (B : Series) (t : Timestamp) (b b' : float64) :
  NoDup (map fst B) -> In (t, b) B -> In (t, b') B -> b = b'.
Proof.
  induction B as [|[t0 b0] B IH]; simpl; [contradiction|].
  intros Hd H1 H2. inversion Hd as [|? ? Hn Hd']; subst.
  destruct H1 as [H1|H1], H2 as [H2|H2].
  - congruence.
  - injection H1 as -> ->. exfalso. apply Hn. apply in_map_iff. now exists (t, b').
  - injection H2 as -> ->. exfalso. apply Hn. apply in_map_iff. now exists (t, b).
  - now apply IH.
Qed.

Lemma lookup_found (B : Series) (t : Timestamp) (b : float64) :
  NoDup (map fst B) -> In (t, b) B -> lookup t B = Some b.
Proof.
  intros Hd Hin.
  destruct (lookup t B) as [b'|] eqn:E.
  - apply lookup_In in E. f_equal. exact (unique_value B t b' b Hd E Hin).
  - exfalso. clear Hd. induction B as [|[t0 b0] B IH]; simpl in *; [contradiction|].
    destruct (Z.eqb_spec t0 t) as [->|Hne]; [discriminate|].
    destruct Hin as [Hin|Hin]; [congruence|auto].
Qed.

Lemma zip_rows_In (A B : Series) (t : Timestamp) (a : float64) :
  map fst B = map fst A -> In (t, a) A ->
  exists b, In (t, b) B /\ In (t, (a, b)) (zip_rows A B).
Proof.
  revert B. induction A as [|[t0 a0] A IH]; intros [|[t' b'] B] H Hin;
    try discriminate H; try contradiction.
  injection H as Ht HB. subst t'. unfold zip_rows. cbn [map2 fst snd].
  destruct Hin as [Hin|Hin].
  - injection Hin as -> ->. exists b'. split; now left.
  - destruct (IH B HB Hin) as (b & H1 & H2). exists b. split; right; assumption.
Qed.

Lemma combined_keeps_row (vix_data sp500_data df : DataFrame)
    (A B : Series) (t : Timestamp) (a b : float64) :
  combined vix_data sp500_data = Ok df ->
  get_close_price vix_data = Ok A ->
  get_close_price sp500_data = Ok B ->
  NoDup (map fst B) ->
  In (t, a) A -> In (t, b) B ->
  isnan a = false -> isnan b = false ->
  exists rows, df = frame_of_rows rows /\ In (t, (a, b)) rows.
Proof.
  intros H HA HB Hd Ha Hb Na Nb.
  assert (Hne : A <> []) by (intros ->; contradiction).
  rewrite (combined_run _ _ A B HA HB Hne) in H.
  assert (Hc : complete (t, (a, b)) = true).
  { unfold complete, notna, row_vix, row_sp500. cbn [fst snd]. now rewrite Na, Nb. }
  destruct (index_equals (map fst B) (map fst A)) eqn:E.
  - injection H as <-. eexists. split; [reflexivity|].
    apply filter_In. split; [|exact Hc].
    apply index_equals_true in E.
    destruct (zip_rows_In A B t a E Ha) as (b' & Hb' & Hin).
    now rewrite (unique_value B t b b' Hd Hb Hb').
  - apply is_unique_NoDup in Hd. rewrite Hd in H. injection H as <-.
    eexists. split; [reflexivity|].
    apply filter_In. split; [|exact Hc].
    unfold reindexed_rows. apply in_map_iff. exists (t, a). split; [|exact Ha].
    cbn [fst snd]. apply is_unique_NoDup in Hd. now rewrite (lookup_found B t b Hd Hb).
Qed.

(** No common trading day is lost: when the timestamps of the S&P500
    series are unique, every timestamp at which both series have a close
    that is not NaN is a row of the aligned series, with these two
    closes. *)
Theorem aligned_keeps_common_days (vix_data sp500_data df : DataFrame)
    (A B : Series) (t : Timestamp) (a b : float64) :
  combined vix_data sp500_data = Ok df ->
  get_close_price vix_data = Ok A ->
  get_close_price sp500_data = Ok B ->
  NoDup (map fst B) ->
  In (t, a) A -> In (t, b) B ->
  isnan a = false -> isnan b = false ->
  exists rows, df = frame_of_rows rows /\ In (t, (a, b)) rows.
Proof. apply combined_keeps_row. Qed.

Lemma aligned_keeps_common_days_witness :
  exists rows, gap_aligned = frame_of_rows rows
    /\ In (5%Z, (Finite 25, Finite 4030)) rows.
Proof.
  apply (aligned_keeps_common_days gap_vix gap_sp500 gap_aligned
           [(1, Finite 21); (2, Finite 22); (4, NaN); (5, Finite 25)]%Z
           [(2, Finite 4000); (3, Finite 4010); (4, Finite 4020); (5, Finite 4030)]%Z).
  - reflexivity.
  - reflexivity.
  - reflexivity.
  - apply is_unique_NoDup. reflexivity.
  - simpl. auto.
  - simpl. auto.
  - reflexivity.
  - reflexivity.
Defined.

(** A repeated timestamp in the S&P500 download, on an index other than
    that of the VIX download, is not aligned: pandas refuses to reindex,
    and [get_data] reports the exception as a failed download and
    returns [None]. *)
Theorem duplicate_timestamps_reported (sqrtQ : Q -> Q)
    (yf_download : string -> Date -> Date -> result DataFrame)
    (start_date end_date : Date) (page : list Element)
    (vix_data sp500_data : DataFrame) (A B : Series) :
  yf_download "^VIX"%string start_date end_date = Ok vix_data ->
  yf_download "^GSPC"%string start_date end_date = Ok sp500_data ->
  df_empty vix_data = false -> df_empty sp500_data = false ->
  get_close_price vix_data = Ok A ->
  get_close_price sp500_data = Ok B ->
  A <> [] ->
  map fst B <> map fst A ->
  ~ NoDup (map fst B) ->
  get_data sqrtQ yf_download start_date end_date page
  = (Ok None,
     page ++ [StError "Errore nel download dei dati: cannot reindex on an axis with duplicate labels";
              StInfo "Suggerimento: Prova a modificare l'intervallo di date o riprova più tardi."]).
Proof.
  intros Hv Hs E1 E2 HA HB Hne Hidx Hdup.
  unfold get_data. rewrite get_data_with_run, Hv, Hs, E1, E2. cbn [orb].
  rewrite (combined_run _ _ A B HA HB Hne).
  destruct (index_equals (map fst B) (map fst A)) eqn:E;
    [apply index_equals_true in E; contradiction|].
  destruct (is_unique (map fst B)) eqn:U;
    [apply is_unique_NoDup in U; contradiction|].
  reflexivity.
Qed.

Lemma duplicate_timestamps_reported_witness :
  get_data sqrt_floor duplicate_download 0%Z 0%Z []
  = (Ok None,
     [] ++ [StError "Errore nel download dei dati: cannot reindex on an axis with duplicate labels";
            StInfo "Suggerimento: Prova a modificare l'intervallo di date o riprova più tardi."]).
Proof.
  apply (duplicate_timestamps_reported sqrt_floor duplicate_download 0%Z 0%Z []
           (mkDataFrame [1; 2]%Z [("Close"%string, [Finite 20; Finite 21])])
           (mkDataFrame [1; 2; 2]%Z
              [("Close"%string, [Finite 4000; Finite 4010; Finite 4020])])
           [(1, Finite 20); (2, Finite 21)]%Z
           [(1, Finite 4000); (2, Finite 4010); (2, Finite 4020)]%Z).
  - reflexivity.
  - reflexivity.
  - reflexivity.
  - reflexivity.
  - reflexivity.
  - reflexivity.
  - discriminate.
  - discriminate.
  - intros H. apply is_unique_NoDup in H. discriminate H.
Defined.

(** ** When [get_data] succeeds *)

(** When both downloads succeed, the S&P500 timestamps are unique, and
    on some day both series have a close that is not NaN, [get_data]
    returns a table with that day among its rows, and shows no
    message. *)
Theorem get_data_succeeds (sqrtQ : Q -> Q)
    (yf_download : string -> Date -> Date -> result DataFrame)
    (start_date end_date : Date) (page : list Element)
    (vix_data sp500_data : DataFrame) (A B : Series)
    (t : Timestamp) (a b : float64) :
  yf_download "^VIX"%string start_date end_date = Ok vix_data ->
  yf_download "^GSPC"%string start_date end_date = Ok sp500_data ->
  get_close_price vix_data = Ok A ->
  get_close_price sp500_data = Ok B ->
  NoDup (map fst B) ->
  In (t, a) A -> In (t, b) B ->
  isnan a = false -> isnan b = false ->
  exists df vix sp500 i,
    get_data sqrtQ yf_download start_date end_date page = (Ok (Some df), page)
    /\ getitem df "VIX" = Ok vix /\ getitem df "SP500" = Ok sp500
    /\ nth_error (df_index df) i = Some t
    /\ nth_error vix i = Some a
    /\ nth_error sp500 i = Some b.
Proof.
  intros Hv Hs HA HB Hd Ha Hb Na Nb.
  assert (NA : A <> []) by (intros ->; contradiction).
  assert (NB : B <> []) by (intros ->; contradiction).
  destruct (combined vix_data sp500_data) as [cd|e] eqn:Hc.
  2:{ rewrite (combined_run _ _ A B HA HB NA) in Hc.
      apply is_unique_NoDup in Hd. rewrite Hd in Hc.
      destruct (index_equals (map fst B) (map fst A)); discriminate Hc. }
  destruct (combined_keeps_row _ _ _ A B t a b Hc HA HB Hd Ha Hb Na Nb)
    as (rows & -> & Hin).
  apply In_nth_error in Hin as (i & Hi).
  exists (table sqrtQ 20 20 (Finite 2) rows), (map row_vix rows), (map row_sp500 rows), i.
  split; [|split; [reflexivity|split; [reflexivity|]]].
  - unfold get_data. rewrite get_data_with_run, Hv, Hs, Hc.
    rewrite (get_close_price_not_empty _ _ HA NA),
      (get_close_price_not_empty _ _ HB NB).
    cbn [orb].
    replace (df_empty (frame_of_rows rows)) with false
      by (destruct rows; [destruct i; discriminate Hi|reflexivity]).
    now rewrite indicators_rows.
  - cbn [table df_index]. rewrite !nth_error_map, Hi. repeat split.
Qed.

Lemma get_data_succeeds_witness :
  exists df vix sp500 i,
    get_data sqrt_floor two_day_download 0%Z 0%Z [] = (Ok (Some df), [])
    /\ getitem df "VIX" = Ok vix /\ getitem df "SP500" = Ok sp500
    /\ nth_error (df_index df) i = Some 2%Z
    /\ nth_error vix i = Some (Finite 12)
    /\ nth_error sp500 i = Some (Finite 4000).
Proof.
  apply (get_data_succeeds sqrt_floor two_day_download 0%Z 0%Z []
           (mkDataFrame [1; 2]%Z [("Close"%string, [Finite 4; Finite 12])])
           (mkDataFrame [1; 2]%Z [("Close"%string, [Finite 4000; Finite 4000])])
           [(1, Finite 4); (2, Finite 12)]%Z
           [(1, Finite 4000); (2, Finite 4000)]%Z).
  - reflexivity.
  - reflexivity.
  - reflexivity.
  - reflexivity.
  - apply is_unique_NoDup. reflexivity.
  - simpl. auto.
  - simpl. auto.
  - reflexivity.
  - reflexivity.
Defined.

(** ** A run on a table of two rows or more *)

Lemma iloc_last (l : list float64) (v : float64) :
  nth_error l (length l - 1) = Some v -> iloc l (-1) = Ok v.
Proof.
  intros E. unfold iloc.
  assert (Hl : (length l - 1 < length l)%nat) by (apply nth_error_Some; congruence).
  change (-1 <? 0)%Z with true. cbv iota.
  replace ((0 <=? -1 + Z.of_nat (length l)) && (-1 + Z.of_nat (length l) <? Z.of_nat (length l)))%Z
    with true by (symmetry; apply andb_true_iff; split; [apply Z.leb_le|apply Z.ltb_lt]; lia).
  replace (Z.to_nat (-1 + Z.of_nat (length l))) with (length l - 1)%nat by lia.
  now rewrite E.
Qed.

Lemma iloc_last_ok (l : list float64) :
  l <> [] -> exists v, iloc l (-1) = Ok v /\ nth_error l (length l - 1) = Some v.
Proof.
  intros Hne.
  destruct (nth_error l (length l - 1)) as [v|] eqn:E.
  - exists v. split; [now apply iloc_last|reflexivity].
  - apply nth_error_None in E. destruct l; [contradiction|simpl in E; lia].
Qed.

Lemma iloc_previous (l : list float64) :
  (2 <= length l)%nat -> iloc l (-2) = Ok (nth (length l - 2) l NaN).
Proof.
  intros Hl. unfold iloc.
  change (-2 <? 0)%Z with true. cbv iota.
  replace ((0 <=? -2 + Z.of_nat (length l)) && (-2 + Z.of_nat (length l) <? Z.of_nat (length l)))%Z
    with true by (symmetry; apply andb_true_iff; split; [apply Z.leb_le|apply Z.ltb_lt]; lia).
  replace (Z.to_nat (-2 + Z.of_nat (length l))) with (length l - 2)%nat by lia.
  destruct (nth_error l (length l - 2)) as [v|] eqn:E.
  - f_equal. symmetry. now apply nth_error_nth.
  - apply nth_error_None in E. lia.
Qed.

Lemma metric_shows (data : DataFrame) (key label : string) (column : list float64)
    (page : list Element) :
  getitem data key = Ok column -> (2 <= length column)%nat ->
  exists current change change_pct,
    metric data key label page
    = (Ok tt, page ++ [StMetric label current change change_pct]).
Proof.
  intros Hc Hl. unfold metric, bind, lift, show. rewrite Hc.
  destruct (iloc_last_ok column) as (current & -> & _);
    [destruct column; [simpl in Hl; lia|discriminate]|].
  rewrite iloc_previous by assumption. eauto.
Qed.

Lemma getitem_table_length (sqrtQ : Q -> Q) (w p : nat) (K : float64)
    (rows : list Row) (key : string) (column : list float64) :
  getitem (table sqrtQ w p K rows) key = Ok column -> length column = length rows.
Proof.
  unfold getitem. destruct (assoc key _) as [v|] eqn:E; [|discriminate].
  intros [= <-]. apply assoc_In in E.
  pose proof (table_columns_length sqrtQ w p K rows) as H.
  rewrite Forall_forall in H. specialize (H _ E).
  cbn [snd table df_index] in H. now rewrite length_map in H.
Qed.

Lemma getitem_table (sqrtQ : Q -> Q) (K : float64) (rows : list Row) (key : string) :
  In key ["VIX"; "SP500"; "Ratio"; "Ratio_MA_20"; "BB_Middle"; "BB_Upper"; "BB_Lower"]%string ->
  exists column, getitem (table sqrtQ 20 20 K rows) key = Ok column
    /\ length column = length rows.
Proof.
  intros H.
  assert (exists column, getitem (table sqrtQ 20 20 K rows) key = Ok column) as (c & Hc).
  { simpl in H. decompose [or] H; subst; try contradiction; eexists; reflexivity. }
  exists c. split; [exact Hc|]. exact (getitem_table_length _ _ _ _ _ _ _ Hc).
Qed.

Lemma before_chart_table (sqrtQ : Q -> Q) (K : float64) (rows : list Row)
    (page : list Element) :
  (2 <= length rows)%nat ->
  exists shown,
    before_chart (table sqrtQ 20 20 K rows) page = (Ok tt, page ++ shown)
    /\ Forall (fun e => is_message e || is_chart e = false) shown.
Proof.
  intros Hl. unfold before_chart.
  destruct (getitem_table sqrtQ K rows "VIX") as (c1 & H1 & L1); [simpl; auto|].
  destruct (getitem_table sqrtQ K rows "SP500") as (c2 & H2 & L2); [simpl; auto|].
  destruct (getitem_table sqrtQ K rows "Ratio") as (c3 & H3 & L3); [simpl; auto 10|].
  unfold bind at 1. unfold show at 1.
  unfold bind at 1.
  destruct (metric_shows _ _ "VIX (Ultimo valore)" _
              (page ++ [StSubheader "Informazioni sugli Indici"]) H1)
    as (a1 & b1 & d1 & ->); [lia|].
  unfold bind at 1.
  destruct (metric_shows _ _ "S&P500 (Ultimo valore)" _
              ((page ++ [StSubheader "Informazioni sugli Indici"])
                 ++ [StMetric "VIX (Ultimo valore)" a1 b1 d1]) H2)
    as (a2 & b2 & d2 & ->); [lia|].
  unfold bind at 1.
  destruct (metric_shows _ _ "Rapporto VIX/S&P500 (×1000)" _
              (((page ++ [StSubheader "Informazioni sugli Indici"])
                 ++ [StMetric "VIX (Ultimo valore)" a1 b1 d1])
                 ++ [StMetric "S&P500 (Ultimo valore)" a2 b2 d2]) H3)
    as (a3 & b3 & d3 & ->); [lia|].
  unfold show. rewrite <- !app_assoc. eexists. split; [reflexivity|].
  repeat constructor.
Qed.

Lemma after_chart_table (sqrtQ : Q -> Q) (K : float64) (rows : list Row)
    (s e : Date) (page : list Element) :
  rows <> [] ->
  exists shown,
    after_chart sqrtQ s e (table sqrtQ 20 20 K rows) page
    = (Ok tt, page ++ shown
              ++ [StDataframe (table sqrtQ 20 20 K rows);
                  StDownloadButton "📥 Scarica dati CSV" (table sqrtQ 20 20 K rows) s e])
    /\ Forall (fun e => is_message e || is_chart e = false) shown.
Proof.
  intros Hne.
  assert (Hl : (1 <= length rows)%nat) by (destruct rows; [contradiction|simpl; lia]).
  destruct (getitem_table sqrtQ K rows "Ratio") as (c3 & H3 & L3); [simpl; auto 10|].
  destruct (getitem_table sqrtQ K rows "BB_Middle") as (c4 & H4 & L4); [simpl; auto 10|].
  destruct (getitem_table sqrtQ K rows "BB_Upper") as (c5 & H5 & L5); [simpl; auto 10|].
  destruct (getitem_table sqrtQ K rows "BB_Lower") as (c6 & H6 & L6); [simpl; auto 10|].
  assert (N3 : c3 <> []) by (intros ->; simpl in L3; lia).
  assert (N4 : c4 <> []) by (intros ->; simpl in L4; lia).
  assert (N5 : c5 <> []) by (intros ->; simpl in L5; lia).
  assert (N6 : c6 <> []) by (intros ->; simpl in L6; lia).
  unfold after_chart, statistics, percentile_panel, bind, lift, show.
  rewrite H3, H4, H5, H6.
  destruct (iloc_last_ok c3 N3) as (v3 & -> & _).
  destruct (iloc_last_ok c4 N4) as (v4 & -> & _).
  destruct (iloc_last_ok c5 N5) as (v5 & -> & _).
  destruct (iloc_last_ok c6 N6) as (v6 & -> & _).
  rewrite <- !app_assoc. cbn [app].
  eexists.
  split.
  - f_equal. f_equal.
    repeat match goal with
           | |- ?x :: _ :: _ :: _ = _ => instantiate (1 := x :: _); cbn [app]; f_equal
           end.
    instantiate (1 := []). reflexivity.
  - repeat constructor.
Qed.

(** On a table of at least two rows [main] runs to its end: nothing is
    raised, no error or information message is shown, and the page ends
    with the table [get_data] returned, the download button that carries
    the same table and the dates of the sidebar, and the footer. *)
Theorem main_completes (sqrtQ : Q -> Q)
    (yf_download : string -> Date -> Date -> result DataFrame)
    (sidebar : Sidebar) (page page' : list Element) (df : DataFrame) :
  get_data sqrtQ yf_download (start_date sidebar) (end_date sidebar) page
  = (Ok (Some df), page') ->
  (2 <= length (df_index df))%nat ->
  exists shown,
    main sqrtQ yf_download sidebar page
    = (Ok tt,
       page ++ shown
         ++ [StDataframe df;
             StDownloadButton "📥 Scarica dati CSV" df
               (start_date sidebar) (end_date sidebar)]
         ++ footer)
    /\ Forall (fun e => is_message e = false) shown
    /\ length (filter is_chart shown) = 1%nat.
Proof.
  intros H Hlen. pose proof H as H'.
  apply get_data_with_Some in H'
    as (-> & _ & _ & _ & _ & rows & _ & _ & _ & _ & _ & Hne & _ & _ & ->).
  cbn [table df_index] in Hlen. rewrite length_map in Hlen.
  destruct (traces_table sqrtQ sidebar (Finite 2) rows) as (fig & Hfig).
  rewrite (main_table sqrtQ yf_download sidebar page page _ fig H
             (table_not_empty _ _ _ _ _ Hne) Hfig).
  destruct (before_chart_table sqrtQ (Finite 2) rows page Hlen) as (s1 & -> & F1).
  destruct (after_chart_table sqrtQ (Finite 2) rows (start_date sidebar)
              (end_date sidebar)
              ((page ++ s1)
                 ++ [StPlotlyChart (show_vix sidebar || show_sp500 sidebar) fig]) Hne)
    as (s2 & -> & F2).
  exists (s1 ++ StPlotlyChart (show_vix sidebar || show_sp500 sidebar) fig :: s2).
  split; [|split].
  - f_equal. rewrite <- ?app_assoc. cbn [app]. rewrite <- ?app_assoc. reflexivity.
  - apply Forall_app. split; [|constructor; [reflexivity|]];
      [eapply Forall_impl; [|exact F1]|eapply Forall_impl; [|exact F2]];
      intros a Ha; now apply orb_false_iff in Ha.
  - rewrite filter_app, length_app. cbn [filter is_chart length].
    assert (Hno : forall s, Forall (fun e => is_message e || is_chart e = false) s ->
                            filter is_chart s = []).
    { induction 1 as [|a s Ha _ IH]; [reflexivity|].
      apply orb_false_iff in Ha as [_ Ha]. simpl. now rewrite Ha. }
    now rewrite (Hno _ F1), (Hno _ F2).
Qed.

Lemma main_completes_witness :
  exists shown,
    main sqrt_floor two_day_download (mkSidebar 0 0 true true true true) []
    = (Ok tt,
       [] ++ shown
         ++ [StDataframe (table sqrt_floor 20 20 (Finite 2) two_day_rows);
             StDownloadButton "📥 Scarica dati CSV"
               (table sqrt_floor 20 20 (Finite 2) two_day_rows) 0%Z 0%Z]
         ++ footer)
    /\ Forall (fun e => is_message e = false) shown
    /\ length (filter is_chart shown) = 1%nat.
Proof.
  apply (main_completes sqrt_floor two_day_download
           (mkSidebar 0 0 true true true true) [] []
           (table sqrt_floor 20 20 (Finite 2) two_day_rows)).
  - reflexivity.
  - cbn. lia.
Defined.

(** ** The figure *)

(** On the table [get_data] returns, the figure is built without an
    exception and without a message.  Its traces are, in this order: the
    ratio column; with the moving-average check box the column
    [Ratio_MA_20]; with the Bollinger check box the columns [BB_Upper],
    [BB_Lower] and [BB_Middle]; with the VIX check box the column [VIX];
    with the S&P500 check box the column [SP500] times
    [mean(VIX) / mean(SP500)].  Each has one value per row of the table.
    Without the two index check boxes no trace is sent to a subplot;
    with one of them the indices go to the second row and the others to
    the first. *)
Theorem figure_traces (sqrtQ : Q -> Q)
    (yf_download : string -> Date -> Date -> result DataFrame)
    (sidebar : Sidebar) (page page' : list Element) (df : DataFrame) :
  get_data sqrtQ yf_download (start_date sidebar) (end_date sidebar) page
  = (Ok (Some df), page') ->
  exists ratio ma upper lower middle vix sp500,
    getitem df "Ratio" = Ok ratio /\ getitem df "Ratio_MA_20" = Ok ma /\
    getitem df "BB_Upper" = Ok upper /\ getitem df "BB_Lower" = Ok lower /\
    getitem df "BB_Middle" = Ok middle /\
    getitem df "VIX" = Ok vix /\ getitem df "SP500" = Ok sp500 /\
    Forall (fun column => length column = length (df_index df))
      [ratio; ma; upper; lower; middle; vix; sp500] /\
    forall p,
      traces sidebar df p
      = (Ok ([mkTrace "Rapporto VIX/S&P500" ratio
                (if show_vix sidebar || show_sp500 sidebar then Some 1%nat else None)]
             ++ (if show_ma sidebar
                 then [mkTrace "Media Mobile (20 giorni)" ma
                         (if show_vix sidebar || show_sp500 sidebar
                          then Some 1%nat else None)]
                 else [])
             ++ (if show_bb sidebar
                 then [mkTrace "Bollinger Superiore" upper
                         (if show_vix sidebar || show_sp500 sidebar
                          then Some 1%nat else None);
                       mkTrace "Bollinger Inferiore" lower
                         (if show_vix sidebar || show_sp500 sidebar
                          then Some 1%nat else None);
                       mkTrace "Bollinger Media" middle
                         (if show_vix sidebar || show_sp500 sidebar
                          then Some 1%nat else None)]
                 else [])
             ++ (if show_vix sidebar then [mkTrace "VIX" vix (Some 2%nat)] else [])
             ++ (if show_sp500 sidebar
                 then [mkTrace "S&P500 (normalizzato)"
                         (map (fun x =>
                                 fmul x (fdiv (Series_mean vix) (Series_mean sp500)))
                            sp500)
                         (Some 2%nat)]
                 else [])),
         p).
Proof.
  intros H.
  apply get_data_with_Some in H
    as (_ & _ & _ & _ & _ & rows & _ & _ & _ & _ & _ & _ & _ & _ & ->).
  do 7 eexists.
  do 7 (split; [reflexivity|]).
  split.
  - cbn [table df_index]. rewrite length_map.
    repeat constructor;
      rewrite ?map2_length, ?length_map, ?rolling_mean_length, ?rolling_std_length,
        ?ratio_of_length, ?length_map; lia.
  - intros p. unfold traces, bind, lift, ret.
    destruct sidebar as [s e ma bb vix sp]. cbn [show_ma show_bb show_vix show_sp500].
    destruct ma, bb, vix, sp; reflexivity.
Qed.

Lemma figure_traces_witness :
  exists ratio ma upper lower middle vix sp500,
    getitem (table sqrt_floor 20 20 (Finite 2) two_day_rows) "Ratio" = Ok ratio /\
    getitem (table sqrt_floor 20 20 (Finite 2) two_day_rows) "Ratio_MA_20" = Ok ma /\
    getitem (table sqrt_floor 20 20 (Finite 2) two_day_rows) "BB_Upper" = Ok upper /\
    getitem (table sqrt_floor 20 20 (Finite 2) two_day_rows) "BB_Lower" = Ok lower /\
    getitem (table sqrt_floor 20 20 (Finite 2) two_day_rows) "BB_Middle" = Ok middle /\
    getitem (table sqrt_floor 20 20 (Finite 2) two_day_rows) "VIX" = Ok vix /\
    getitem (table sqrt_floor 20 20 (Finite 2) two_day_rows) "SP500" = Ok sp500 /\
    Forall (fun column =>
              length column
              = length (df_index (table sqrt_floor 20 20 (Finite 2) two_day_rows)))
      [ratio; ma; upper; lower; middle; vix; sp500] /\
    forall p,
      traces (mkSidebar 0 0 true false true false)
        (table sqrt_floor 20 20 (Finite 2) two_day_rows) p
      = (Ok ([mkTrace "Rapporto VIX/S&P500" ratio
                (if show_vix (mkSidebar 0 0 true false true false)
                    || show_sp500 (mkSidebar 0 0 true false true false)
                 then Some 1%nat else None)]
             ++ (if show_ma (mkSidebar 0 0 true false true false)
                 then [mkTrace "Media Mobile (20 giorni)" ma
                         (if show_vix (mkSidebar 0 0 true false true false)
                             || show_sp500 (mkSidebar 0 0 true false true false)
                          then Some 1%nat else None)]
                 else [])
             ++ (if show_bb (mkSidebar 0 0 true false true false)
                 then [mkTrace "Bollinger Superiore" upper
                         (if show_vix (mkSidebar 0 0 true false true false)
                             || show_sp500 (mkSidebar 0 0 true false true false)
                          then Some 1%nat else None);
                       mkTrace "Bollinger Inferiore" lower
                         (if show_vix (mkSidebar 0 0 true false true false)
                             || show_sp500 (mkSidebar 0 0 true false true false)
                          then Some 1%nat else None);
                       mkTrace "Bollinger Media" middle
                         (if show_vix (mkSidebar 0 0 true false true false)
                             || show_sp500 (mkSidebar 0 0 true false true false)
                          then Some 1%nat else None)]
                 else [])
             ++ (if show_vix (mkSidebar 0 0 true false true false)
                 then [mkTrace "VIX" vix (Some 2%nat)] else [])
             ++ (if show_sp500 (mkSidebar 0 0 true false true false)
                 then [mkTrace "S&P500 (normalizzato)"
                         (map (fun x =>
                                 fmul x (fdiv (Series_mean vix) (Series_mean sp500)))
                            sp500)
                         (Some 2%nat)]
                 else [])),
         p).
Proof.
  apply (figure_traces sqrt_floor two_day_download
           (mkSidebar 0 0 true false true false) [] []
           (table sqrt_floor 20 20 (Finite 2) two_day_rows)).
  reflexivity.
Defined.

(** ** The normalised S&P500 trace *)

Lemma Qsum_scale (c : Q) (l : list Q) : Qsum (map (fun q => q * c) l) == Qsum l * c.
Proof.
  induction l as [|q l IH]; [reflexivity|].
  cbn [map]. rewrite !Qsum_cons, IH. ring.
Qed.

Lemma Series_mean_Finite (qs : list Q) :
  qs <> [] -> Series_mean (map Finite qs) = Finite (Qmean qs).
Proof.
  intros Hne. unfold Series_mean, Qmean.
  rewrite observations_Finite, fsum_Finite, length_map.
  apply fdiv_Finite_nat. destruct qs; [contradiction|simpl; lia].
Qed.

(** With the S&P500 check box set, the last trace of the figure is the
    S&P500 column scaled by [mean(VIX) / mean(SP500)]; on finite closes
    with a non-zero S&P500 mean, the mean of that trace is the mean of
    the VIX column. *)
Theorem normalised_sp500_mean (sqrtQ : Q -> Q)
    (yf_download : string -> Date -> Date -> result DataFrame)
    (sidebar : Sidebar) (page page' : list Element) (df : DataFrame)
    (vix sp500 : list Q) :
  get_data sqrtQ yf_download (start_date sidebar) (end_date sidebar) page
  = (Ok (Some df), page') ->
  getitem df "VIX" = Ok (map Finite vix) ->
  getitem df "SP500" = Ok (map Finite sp500) ->
  show_sp500 sidebar = true ->
  ~ Qmean sp500 == 0 ->
  exists front y,
    (forall p,
       traces sidebar df p
       = (Ok (front ++ [mkTrace "S&P500 (normalizzato)" y (Some 2%nat)]), p))
    /\ y = map (fun x => fmul x (Finite (Qmean vix / Qmean sp500))) (map Finite sp500)
    /\ Series_mean y =f= Finite (Qmean vix).
Proof.
  intros H Hv Hs Hsp Hm.
  apply get_data_with_Some in H
    as (_ & _ & _ & _ & _ & rows & _ & _ & _ & _ & _ & Hne & _ & _ & ->).
  change (getitem (table sqrtQ 20 20 (Finite 2) rows) "VIX")
    with (Ok (map row_vix rows)) in Hv.
  change (getitem (table sqrtQ 20 20 (Finite 2) rows) "SP500")
    with (Ok (map row_sp500 rows)) in Hs.
  injection Hv as Hv. injection Hs as Hs.
  assert (Lv : length vix = length rows).
  { rewrite <- (length_map Finite), <- Hv. apply length_map. }
  assert (Ls : length sp500 = length rows).
  { rewrite <- (length_map Finite), <- Hs. apply length_map. }
  assert (Nv : vix <> []) by (intros ->; destruct rows; [contradiction|discriminate]).
  assert (Ns : sp500 <> []) by (intros ->; destruct rows; [contradiction|discriminate]).
  assert (Hn : fdiv (Series_mean (map row_vix rows)) (Series_mean (map row_sp500 rows))
               = Finite (Qmean vix / Qmean sp500)).
  { rewrite Hv, Hs, !Series_mean_Finite by assumption. cbn [fdiv].
    now rewrite Qeq_bool_false. }
  exists (firstn (length (trace_names sidebar) - 1)
            (match traces sidebar (table sqrtQ 20 20 (Finite 2) rows) [] with
             | (Ok fig, _) => fig
             | _ => []
             end)).
  eexists. split; [|split; [reflexivity|]].
  - rewrite <- Hs.
    unfold traces, trace_names, bind, lift, ret.
    destruct sidebar as [s e ma bb vx sp]. cbn [show_ma show_bb show_vix show_sp500] in *.
    subst sp.
    destruct ma, bb, vx; intros p;
      cbn [getitem table df_columns assoc String.eqb Ascii.eqb Bool.eqb orb app length
           Nat.sub firstn];
      simpl String.eqb; cbv iota; cbn [app length Nat.sub firstn]; rewrite Hn; reflexivity.
  - rewrite map_map. cbn [fmul].
    rewrite <- (map_map (fun q => q * (Qmean vix / Qmean sp500)) Finite).
    rewrite Series_mean_Finite.
    + cbn [feq]. unfold Qmean in *. rewrite length_map, Qsum_scale.
      rewrite Ls in *. rewrite Lv.
      assert (Hpos : 0 < inject_Z (Z.of_nat (length rows))).
      { apply inject_nat_pos. destruct rows; [contradiction|simpl; lia]. }
      assert (Hq : ~ Qsum sp500 == 0).
      { intros H0. apply Hm. rewrite H0. field. lra. }
      field. split; [lra|exact Hq].
    + intros E. apply map_eq_nil in E. contradiction.
Qed.

Lemma normalised_sp500_mean_witness :
  exists front y,
    (forall p,
       traces (mkSidebar 0 0 false false false true)
         (table sqrt_floor 20 20 (Finite 2) two_day_rows) p
       = (Ok (front ++ [mkTrace "S&P500 (normalizzato)" y (Some 2%nat)]), p))
    /\ y = map (fun x => fmul x (Finite (Qmean [4; 12] / Qmean [4000; 4000])))
             (map Finite [4000; 4000])
    /\ Series_mean y =f= Finite (Qmean [4; 12]).
Proof.
  apply (normalised_sp500_mean sqrt_floor two_day_download
           (mkSidebar 0 0 false false false true) [] []
           (table sqrt_floor 20 20 (Finite 2) two_day_rows) [4; 12] [4000; 4000]).
  - reflexivity.
  - reflexivity.
  - reflexivity.
  - reflexivity.
  - intros H. discriminate H.
Defined.

(** ** Fewer rows than the window *)

Lemma table_last_band (sqrtQ : Q -> Q) (K : float64) (ratio : list float64)
    (f : float64 -> float64 -> float64) :
  (forall y, f NaN y = NaN) ->
  ratio <> [] -> (length ratio < 20)%nat ->
  let band := map (fun x => fmul x K) (rolling_std sqrtQ 20 ratio) in
  let column := map2 f (rolling_mean 20 ratio) band in
  iloc column (-1) = Ok NaN.
Proof.
  intros Hf Hne Hlt band column.
  assert (Hlen : length column = length ratio).
  { unfold column, band.
    rewrite map2_length, length_map, rolling_mean_length, rolling_std_length. lia. }
  assert (Hpos : (0 < length ratio)%nat) by (destruct ratio; [contradiction|simpl; lia]).
  apply iloc_last. rewrite Hlen.
  destruct (nth_error column (length ratio - 1)) as [u|] eqn:E;
    [|apply nth_error_None in E; lia].
  apply map2_nth_error in E as (m & b & Hm & _ & ->).
  rewrite rolling_mean_undefined in Hm by lia. injection Hm as <-.
  now rewrite Hf.
Qed.

(** On a date range with fewer than 20 common trading days the Bollinger
    bands of the last row are NaN, and the statistics report the last
    ratio, whatever it is, as inside the bands. *)
Theorem short_range_inside_bands (sqrtQ : Q -> Q)
    (yf_download : string -> Date -> Date -> result DataFrame)
    (start_date end_date : Date) (page page' : list Element) (df : DataFrame) :
  get_data sqrtQ yf_download start_date end_date page = (Ok (Some df), page') ->
  (length (df_index df) < 20)%nat ->
  exists front,
    forall p,
      statistics sqrtQ df p
      = (Ok tt,
         p ++ front
           ++ [StMarkdown "**Stato attuale**: :blue[All'interno delle bande]";
               StWrite "Banda superiore: " [NaN];
               StWrite "Media: " [NaN];
               StWrite "Banda inferiore: " [NaN]]).
Proof.
  intros H Hlen.
  apply get_data_with_Some in H
    as (_ & _ & _ & _ & _ & rows & _ & _ & _ & _ & _ & Hne & _ & _ & ->).
  cbn [table df_index] in Hlen. rewrite length_map in Hlen.
  assert (Hr : ratio_of rows <> []).
  { intros E. apply (f_equal (@length _)) in E. rewrite ratio_of_length in E.
    destruct rows; [contradiction|discriminate]. }
  assert (Hrl : (length (ratio_of rows) < 20)%nat) by now rewrite ratio_of_length.
  destruct (iloc_last_ok _ Hr) as (current & Hcur & _).
  pose proof (table_last_band sqrtQ (Finite 2) (ratio_of rows) fadd
                (fun y => eq_refl) Hr Hrl) as Hup.
  pose proof (table_last_band sqrtQ (Finite 2) (ratio_of rows) fsub
                (fun y => eq_refl) Hr Hrl) as Hlo.
  assert (Hmid : iloc (rolling_mean 20 (ratio_of rows)) (-1) = Ok NaN).
  { apply iloc_last. rewrite rolling_mean_length.
    assert (0 < length (ratio_of rows))%nat
      by (destruct (ratio_of rows); [contradiction|simpl; lia]).
    apply rolling_mean_undefined; lia. }
  cbv zeta in Hup, Hlo.
  exists [StWrite "Statistiche sul rapporto VIX/S&P500:" [];
          StStats [("Media", Series_mean (ratio_of rows));
                   ("Mediana", Series_median (ratio_of rows));
                   ("Minimo", Series_min (ratio_of rows));
                   ("Massimo", Series_max (ratio_of rows));
                   ("Deviazione Standard", Series_std sqrtQ (ratio_of rows))]%string;
          StWrite "Posizione rispetto alle Bande di Bollinger:" []].
  intros p.
  unfold statistics, bind, lift, show.
  change (getitem (table sqrtQ 20 20 (Finite 2) rows) "Ratio")
    with (Ok (ratio_of rows)).
  change (getitem (table sqrtQ 20 20 (Finite 2) rows) "BB_Upper")
    with (Ok (map2 fadd (rolling_mean 20 (ratio_of rows))
                (map (fun x => fmul x (Finite 2))
                   (rolling_std sqrtQ 20 (ratio_of rows))))).
  change (getitem (table sqrtQ 20 20 (Finite 2) rows) "BB_Lower")
    with (Ok (map2 fsub (rolling_mean 20 (ratio_of rows))
                (map (fun x => fmul x (Finite 2))
                   (rolling_std sqrtQ 20 (ratio_of rows))))).
  change (getitem (table sqrtQ 20 20 (Finite 2) rows) "BB_Middle")
    with (Ok (rolling_mean 20 (ratio_of rows))).
  cbv iota beta.
  rewrite Hcur, Hup, Hlo, Hmid.
  assert (Hpos : bb_position current NaN NaN
                 = ("All'interno delle bande", "blue")%string).
  { unfold bb_position, fgt. now destruct current. }
  rewrite Hpos. cbn [fst snd]. cbn [String.append].
  rewrite <- !app_assoc. cbn [app]. reflexivity.
Qed.

Lemma short_range_inside_bands_witness :
  exists front,
    forall p,
      statistics sqrt_floor (table sqrt_floor 20 20 (Finite 2) two_day_rows) p
      = (Ok tt,
         p ++ front
           ++ [StMarkdown "**Stato attuale**: :blue[All'interno delle bande]";
               StWrite "Banda superiore: " [NaN];
               StWrite "Media: " [NaN];
               StWrite "Banda inferiore: " [NaN]]).
Proof.
  apply (short_range_inside_bands sqrt_floor two_day_download 0%Z 0%Z [] []
           (table sqrt_floor 20 20 (Finite 2) two_day_rows)).
  - reflexivity.
  - cbn. lia.
Defined.

(** ** The rank of the current value *)

Lemma fle_refl (x : float64) : isnan x = false -> fle x x = true.
Proof.
  destruct x; simpl; try reflexivity; try discriminate.
  intros _. apply Qle_bool_true. apply Qle_refl.
Qed.






(** ** Median and percentiles *)







(** ** Minimum and maximum *)

Lemma fle_total (x y : float64) :
  isnan x = false -> isnan y = false -> fle x y = false -> fle y x = true.
Proof.
  destruct x as [a| | |], y as [b| | |]; simpl; try discriminate; try reflexivity.
  intros _ _ H. apply Qle_bool_true.
  destruct (Qlt_le_dec b a) as [Hlt|Hle]; [now apply Qlt_le_weak|].
  apply Qle_bool_true in Hle. congruence.
Qed.

Lemma fle_trans (x y z : float64) :
  fle x y = true -> fle y z = true -> fle x z = true.
Proof.
  destruct x as [a| | |], y as [b| | |], z as [c| | |]; simpl;
    try discriminate; try reflexivity.
  rewrite !Qle_bool_iff. apply Qle_trans.
Qed.

Lemma fold_fmin_spec (rest : list float64) (v : float64) :
  Forall (fun u => isnan u = false) (v :: rest) ->
  In (fold_left fmin rest v) (v :: rest)
  /\ forall u, In u (v :: rest) -> fle (fold_left fmin rest v) u = true.
Proof.
  revert v. induction rest as [|y rest IH]; intros v Hall.
  - inversion Hall as [|? ? Hv _]; subst. cbn [fold_left]. split; [now left|].
    intros u [<-|[]]. now apply fle_refl.
  - inversion Hall as [|? ? Hv Hall']; subst.
    inversion Hall' as [|? ? Hy Hrest]; subst.
    cbn [fold_left].
    assert (Hm : isnan (fmin v y) = false) by (unfold fmin; now destruct (fle v y)).
    destruct (IH (fmin v y) (Forall_cons _ Hm Hrest)) as (Hin & Hle).
    assert (Hmv : fle (fmin v y) v = true /\ fle (fmin v y) y = true).
    { unfold fmin. destruct (fle v y) eqn:E.
      - split; [now apply fle_refl|assumption].
      - split; [now apply fle_total|now apply fle_refl]. }
    split.
    + destruct Hin as [<-|Hin]; [|right; now right].
      unfold fmin. destruct (fle v y); [now left|right; now left].
    + intros u [<-|[<-|Hu]].
      * apply (fle_trans _ (fmin v y)); [apply Hle; now left|apply Hmv].
      * apply (fle_trans _ (fmin v y)); [apply Hle; now left|apply Hmv].
      * apply Hle. now right.
Qed.

Lemma fold_fmax_spec (rest : list float64) (v : float64) :
  Forall (fun u => isnan u = false) (v :: rest) ->
  In (fold_left fmax rest v) (v :: rest)
  /\ forall u, In u (v :: rest) -> fle u (fold_left fmax rest v) = true.
Proof.
  revert v. induction rest as [|y rest IH]; intros v Hall.
  - inversion Hall as [|? ? Hv _]; subst. cbn [fold_left]. split; [now left|].
    intros u [<-|[]]. now apply fle_refl.
  - inversion Hall as [|? ? Hv Hall']; subst.
    inversion Hall' as [|? ? Hy Hrest]; subst.
    cbn [fold_left].
    assert (Hm : isnan (fmax v y) = false) by (unfold fmax; now destruct (fle v y)).
    destruct (IH (fmax v y) (Forall_cons _ Hm Hrest)) as (Hin & Hle).
    assert (Hmv : fle v (fmax v y) = true /\ fle y (fmax v y) = true).
    { unfold fmax. destruct (fle v y) eqn:E.
      - split; [assumption|now apply fle_refl].
      - split; [now apply fle_refl|now apply fle_total]. }
    split.
    + destruct Hin as [<-|Hin]; [|right; now right].
      unfold fmax. destruct (fle v y); [right; now left|now left].
    + intros u [<-|[<-|Hu]].
      * apply (fle_trans _ (fmax v y)); [apply Hmv|apply Hle; now left].
      * apply (fle_trans _ (fmax v y)); [apply Hmv|apply Hle; now left].
      * apply Hle. now right.
Qed.

Lemma observations_In (values : list float64) (v : float64) :
  In v (observations values) <-> In v values /\ isnan v = false.
Proof.
  unfold observations, notna. rewrite filter_In, negb_true_iff. reflexivity.
Qed.

(** The rows "Minimo" and "Massimo" of the summary: NaN cells are
    skipped; when the series has a value that is not NaN, the minimum and
    the maximum are values of the series, and every value that is not NaN
    lies between them. *)
Theorem summary_extremes (values : list float64) (w : float64) :
  In w values -> isnan w = false ->
  In (Series_min values) values /\ In (Series_max values) values
  /\ isnan (Series_min values) = false /\ isnan (Series_max values) = false
  /\ forall v, In v values -> isnan v = false ->
       fle (Series_min values) v = true /\ fle v (Series_max values) = true.
Proof.
  intros Hw Nw. unfold Series_min, Series_max.
  assert (Hobs : In w (observations values)) by now apply observations_In.
  assert (Hall : Forall (fun u => isnan u = false) (observations values)).
  { apply Forall_forall. intros u Hu. now apply observations_In in Hu. }
  destruct (observations values) as [|x rest] eqn:E; [contradiction|].
  destruct (fold_fmin_spec rest x Hall) as (Hmin & Hlo).
  destruct (fold_fmax_spec rest x Hall) as (Hmax & Hhi).
  rewrite <- E in Hmin, Hmax, Hlo, Hhi.
  apply observations_In in Hmin as (Hmin & Nmin).
  apply observations_In in Hmax as (Hmax & Nmax).
  repeat split; auto.
  - apply Hlo. now apply observations_In.
  - apply Hhi. now apply observations_In.
Qed.

Lemma summary_extremes_witness :
  In (Series_min [Finite 3; NaN; Finite 1]) [Finite 3; NaN; Finite 1]
  /\ In (Series_max [Finite 3; NaN; Finite 1]) [Finite 3; NaN; Finite 1]
  /\ isnan (Series_min [Finite 3; NaN; Finite 1]) = false
  /\ isnan (Series_max [Finite 3; NaN; Finite 1]) = false
  /\ forall v, In v [Finite 3; NaN; Finite 1] -> isnan v = false ->
       fle (Series_min [Finite 3; NaN; Finite 1]) v = true
       /\ fle v (Series_max [Finite 3; NaN; Finite 1]) = true.
Proof.
  apply (summary_extremes [Finite 3; NaN; Finite 1] (Finite 3)).
  - simpl. auto.
  - reflexivity.
Defined.

(** ** The metrics *)

(** A metric reads the last two cells of its column: it shows the last
    one, its difference from the one before, and that difference as a
    percentage of the one before.  Nothing is raised, also when the cell
    before is 0: the percentage is then an infinity or NaN. *)
Theorem metric_last_two (data : DataFrame) (key label : string)
    (front : list float64) (previous current : float64) (page : list Element) :
  getitem data key = Ok (front ++ [previous; current]) ->
  metric data key label page
  = (Ok tt,
     page ++ [StMetric label current (fsub current previous)
                (fmul (fdiv (fsub current previous) previous) (Finite 100))])
  /\ (previous = Finite 0 ->
      isfinite (fmul (fdiv (fsub current previous) previous) (Finite 100)) = false).
Proof.
  intros H. split.
  - unfold metric, bind, lift, show. rewrite H.
    rewrite (iloc_last _ current), (iloc_previous (front ++ [previous; current])).
    + rewrite length_app. cbn [length].
      replace (length front + 2 - 2)%nat with (length front) by lia.
      rewrite app_nth2 by lia. rewrite Nat.sub_diag. reflexivity.
    + rewrite length_app. cbn [length]. lia.
    + rewrite length_app. cbn [length].
      replace (length front + 2 - 1)%nat with (length front + 1)%nat by lia.
      rewrite nth_error_app2 by lia.
      replace (length front + 1 - length front)%nat with 1%nat by lia. reflexivity.
  - intros ->. destruct current as [c| | |]; try reflexivity.
    cbn [fsub fneg fadd fdiv]. change (Qeq_bool 0 0) with true. cbv iota.
    unfold scale_inf.
    destruct (Qeq_bool (c + - 0) 0); [reflexivity|].
    destruct (Qle_bool 0 (c + - 0)); reflexivity.
Qed.

Lemma metric_last_two_witness :
  metric (table sqrt_floor 20 20 (Finite 2) two_day_rows) "VIX" "VIX (Ultimo valore)" []
  = (Ok tt,
     [] ++ [StMetric "VIX (Ultimo valore)" (Finite 12) (fsub (Finite 12) (Finite 4))
              (fmul (fdiv (fsub (Finite 12) (Finite 4)) (Finite 4)) (Finite 100))])
  /\ (Finite 4 = Finite 0 ->
      isfinite (fmul (fdiv (fsub (Finite 12) (Finite 4)) (Finite 4)) (Finite 100))
      = false).
Proof.
  apply (metric_last_two (table sqrt_floor 20 20 (Finite 2) two_day_rows)
           "VIX" "VIX (Ultimo valore)" [] (Finite 4) (Finite 12) []).
  reflexivity.
Defined.
